(** * my-gym-log: client-side aggregation and unit conversion

    A shallow embedding of the business logic of the workout tracker
    (hooks/useSettings.tsx, pages/Dashboard, pages/Progress.tsx,
    pages/Templates.tsx (ExerciseDetails), pages/ActiveWorkout.tsx) together
    with the properties its specification states about it.

    Conventions of the embedding.
    - A JavaScript [number] the pages do arithmetic with is a binary64 float
      ([PrimFloat.float]): a volume, and a weight handed to the unit
      conversion.  Products, sums, quotients and [Math.round] are those of
      the engine, rounding included.
    - A weight or a repetition count of a row is held as an exact rational
      ([Q]): the decimal of the store (DECIMAL(10,2), INTEGER) or, for any
      other number, its exact value.  The engine holds the double nearest
      to it, [double w], which is the number itself when it is a double.
      Weights are compared, and subtracted only to sort: comparisons are
      made on the rationals (the doubles of two stored decimals compare as
      the decimals do), products and sums on their doubles.
    - Counters and timestamps are integers ([Z], [nat]).
    - A [Date] is its millisecond timestamp ([Z]).  date-fns is an external
      library; its day arithmetic is modelled for a zone without daylight
      saving changes, where one calendar day is 86 400 000 ms and timestamps
      are read on the local wall clock.
    - A nullable column is an [option]; [x || d] is written out.
    - A JS [Map] is an association list in insertion order. *)

From Stdlib Require Import ZArith QArith Qround Qabs String Ascii List Bool Lia
  Lqa Permutation Sorted.
From Stdlib Require PrimFloat SpecFloat FloatOps FloatAxioms.
From Stdlib Require Import DecimalString DecimalZ.
Import ListNotations.

Set Implicit Arguments.

(* ================================================================== *)
(** * Part I: the program                                              *)
(* ================================================================== *)

(** ** JavaScript primitives used by the pages *)
Module Js.

(** [s || d] on a string: the empty string is falsy. *)
Definition str_or (s : option string) (d : string) : string :=
  match s with
  | Some EmptyString => d
  | Some v => v
  | None => d
  end.

(** [x || 0] on a nullable number ([0 || 0] is [0] as well). *)
Definition num_or_0 (x : option Q) : Q :=
  match x with
  | Some q => q
  | None => 0
  end.

Definition int_or_0 (x : option Z) : Q :=
  match x with
  | Some n => inject_Z n
  | None => 0
  end.

(** [a > b] on numbers. *)
Definition gtb (a b : Q) : bool :=
  match a ?= b with
  | Gt => true
  | _ => false
  end.

(** [Math.max(a, b)]. *)
Definition Math_max (a b : Q) : Q := if gtb b a then b else a.

(** [(xs as any[])?.forEach(...)] and [xs || []]: a null array is skipped. *)
Definition arr {A : Type} (xs : option (list A)) : list A :=
  match xs with
  | Some l => l
  | None => []
  end.

(** *** [Map]: entries are kept in insertion order; [set] on a present key
    replaces the value in place. *)
Section Map.
Variables (K V : Type) (eqb : K -> K -> bool).

Definition Map := list (K * V).

Fixpoint map_get (k : K) (m : Map) : option V :=
  match m with
  | [] => None
  | (k', v) :: m' => if eqb k k' then Some v else map_get k m'
  end.

Fixpoint map_set (k : K) (v : V) (m : Map) : Map :=
  match m with
  | [] => [(k, v)]
  | (k', v') :: m' =>
      if eqb k k' then (k', v) :: m' else (k', v') :: map_set k v m'
  end.

(** [Array.from(m.entries())] *)
Definition map_entries (m : Map) : list (K * V) := m.
End Map.

(** *** [Array.prototype.sort(cmp)].  The sort is stable and [cmp a b]
  negative (positive) puts [a] before (after) [b]; with a comparator that
  is a consistent order the result is the unique stable ordering, which
  this insertion sort computes. *)
Section Sort.
Variables (A : Type) (cmp : A -> A -> Q).

Fixpoint sort_insert (x : A) (l : list A) : list A :=
  match l with
  | [] => [x]
  | y :: l' =>
      if Qle_bool (cmp x y) 0 then x :: y :: l' else y :: sort_insert x l'
  end.

Fixpoint Array_sort (l : list A) : list A :=
  match l with
  | [] => []
  | x :: l' => sort_insert x (Array_sort l')
  end.
End Sort.

(** [xs.slice(0, n)] and [xs.slice(-n)] for a natural [n]. *)
Definition slice_first {A : Type} (n : nat) (xs : list A) : list A :=
  firstn n xs.
Definition slice_last {A : Type} (n : nat) (xs : list A) : list A :=
  skipn (length xs - n) xs.

(** [String(n)] and [`${n}`] for an integer [n]. *)
Definition toString (n : Z) : string := NilZero.string_of_int (Z.to_int n).

Fixpoint replicate (n : nat) (c : ascii) : string :=
  match n with
  | O => EmptyString
  | S n' => String c (replicate n' c)
  end.

(** [s.padStart(targetLength, c)] for a one-character filler [c]. *)
Definition padStart (s : string) (targetLength : nat) (c : ascii) : string :=
  (replicate (targetLength - String.length s) c ++ s)%string.

(** [xs[i] = true] for an index inside the array. *)
Fixpoint set_true (i : nat) (xs : list bool) : list bool :=
  match xs, i with
  | [], _ => []
  | _ :: xs', O => true :: xs'
  | x :: xs', S j => x :: set_true j xs'
  end.

(** The names every object inherits from [Object.prototype]: on [{}] the
    lookup [acc[name]] finds the inherited member, not [undefined]. *)
Definition inherited (key : string) : bool :=
  existsb (String.eqb key)
    ["constructor"; "__proto__"; "hasOwnProperty"; "isPrototypeOf";
     "propertyIsEnumerable"; "toLocaleString"; "toString"; "valueOf";
     "__defineGetter__"; "__defineSetter__"; "__lookupGetter__";
     "__lookupSetter__"]%string.

(** *** Numbers: IEEE 754 binary64, the primitive floats of the prover. *)
Import PrimFloat SpecFloat FloatOps.

(** A positive integer below 2^63 as a double (exact below 2^53). *)
Definition of_pos (p : positive) : float :=
  of_uint63 (Uint63Axioms.of_Z (Z.pos p)).

(** The quotient of two positive integers, correctly rounded.  Numerator
    and denominator below 2^53 are doubles and the engine's division rounds
    their quotient to nearest; beyond, the reference division of the
    standard library does the same from the integers themselves. *)
Definition quotient (n d : positive) : float :=
  if ((Z.pos n <? 9007199254740992) && (Z.pos d <? 9007199254740992))%Z
  then (of_pos n / of_pos d)%float
  else SF2Prim (SFdiv prec emax (S754_finite false n 0) (S754_finite false d 0)).

(** [double q]: the double nearest to the rational [q] (ties to even), the
    number the engine holds for a decimal of the store such as 2.3. *)
Definition double (q : Q) : float :=
  match Qnum q with
  | Z0 => 0%float
  | Z.pos n => quotient n (Qden q)
  | Z.neg n => (- quotient n (Qden q))%float
  end.

(** [Math.round] on a double: an integral value, an infinity or NaN is
    returned as it is; otherwise the nearest integer, ties towards
    +infinity, and a zero result keeps the sign of the argument.  A finite
    double is [m * 2^e]; with [e < 0] it is below 2^52 in magnitude. *)
Definition Math_round (x : float) : float :=
  match Prim2SF x with
  | S754_finite s m e =>
      if (0 <=? e)%Z then x
      else
        let v := if s then Z.neg m else Z.pos m in
        let d := (2 ^ (- e))%Z in
        match ((2 * v + d) / (2 * d))%Z with
        | Z0 => if s then (-0)%float else 0%float
        | Z.pos p => SF2Prim (S754_finite false p 0)
        | Z.neg p => SF2Prim (S754_finite true p 0)
        end
  | _ => x
  end.

End Js.

(** ** date-fns (external library), for a zone without clock changes *)
Module DateFns.
Local Open Scope Z_scope.

Definition MS_PER_DAY : Z := 86400000.

(** [subDays(date, amount)] *)
Definition subDays (date amount : Z) : Z := date - amount * MS_PER_DAY.

(** [differenceInDays(dateLeft, dateRight)]: the number of full days
    between the two dates, truncated towards zero. *)
Definition differenceInDays (dateLeft dateRight : Z) : Z :=
  Z.quot (dateLeft - dateRight) MS_PER_DAY.

(** The calendar day of a date, numbered from the epoch; it stands for the
    key [format(date, 'yyyy-MM-dd')], which names that day. *)
Definition calendarDay (date : Z) : Z := date / MS_PER_DAY.

(** [new Date(key).getTime()] for a 'yyyy-MM-dd' key: midnight of the day. *)
Definition dayKeyTime (day : Z) : Z := day * MS_PER_DAY.

(** [date.getDay()]: 0 for Sunday; day 0 of the epoch is a Thursday. *)
Definition getDay (date : Z) : Z := (calendarDay date + 4) mod 7.

(** [startOfWeek(date, { weekStartsOn })]: midnight of the first day of the
    week of [date]. *)
Definition startOfWeek (date weekStartsOn : Z) : Z :=
  let day := getDay date in
  let diff := (if day <? weekStartsOn then 7 else 0) + day - weekStartsOn in
  (calendarDay date - diff) * MS_PER_DAY.

(** [addDays(date, amount)] *)
Definition addDays (date amount : Z) : Z := date + amount * MS_PER_DAY.

(** [isSameDay(dateLeft, dateRight)] *)
Definition isSameDay (dateLeft dateRight : Z) : bool :=
  calendarDay dateLeft =? calendarDay dateRight.

(** [eachDayOfInterval({ start, end })] for [start] not after [end]: the
    midnights of the days from the day of [start] to the day of [end]. *)
Definition eachDayOfInterval (start end_ : Z) : list Z :=
  map (fun k => (calendarDay start + Z.of_nat k) * MS_PER_DAY)
      (seq 0 (Z.to_nat (calendarDay end_ - calendarDay start + 1))).

End DateFns.


(** ** hooks/useSettings.tsx *)
Module Settings.
Import Js PrimFloat.
Local Open Scope string_scope.

(** [type UnitPreference = 'kg' | 'lbs'] is a compile-time annotation: at
    run time the preference is whatever string the state holds. *)
Definition UnitPreference := string.

(** [const KG_TO_LBS = 2.20462]: the double nearest to 2.20462. *)
Definition KG_TO_LBS : float := 0x1.1a30fcf80dc33p+1%float.

(** The initializer of [useState]: [saved] is the result of
    [localStorage.getItem('gym-unit')], [None] for [null]. *)
Definition initialUnit (hasWindow : bool) (saved : option string)
  : UnitPreference :=
  if hasWindow then str_or saved "kg" else "kg".

Definition convertWeight (unit : UnitPreference) (weight : float)
    (toUnit : option UnitPreference) : float :=
  let targetUnit := str_or toUnit unit in
  if String.eqb targetUnit "lbs"
  then (Math_round (weight * KG_TO_LBS * 10) / 10)%float
  else weight.

(** The provider's state and the entry of [localStorage] it mirrors. *)
Record Provider := { p_unit : UnitPreference; p_stored : option string }.

(** [useEffect(() => { localStorage.setItem('gym-unit', unit) }, [unit])] *)
Definition persist (p : Provider) : Provider :=
  {| p_unit := p_unit p; p_stored := Some (p_unit p) |}.

(** The first render in a browser, followed by its effect. *)
Definition mount (saved : option string) : Provider :=
  persist {| p_unit := initialUnit true saved; p_stored := saved |}.

(** [setUnit(newUnit)]: a state equal to the current one causes no render;
    otherwise the provider renders again and the effect runs. *)
Definition setUnit (p : Provider) (newUnit : UnitPreference) : Provider :=
  if String.eqb newUnit (p_unit p) then p
  else persist {| p_unit := newUnit; p_stored := p_stored p |}.

End Settings.



(** ** pages/Dashboard (src/unnamed/part_002): fetchDashboardStats *)
Module Dashboard.
Import Js DateFns.
Local Open Scope Z_scope.

(** A row of the query: completed workouts only, newest first. *)
Record Workout := { id : string; name : string; completed_at : Z }.

(** The body of [for (const workout of workouts)], with [break]. *)
Fixpoint streak_loop (checkDate : Z) (currentStreak : Z)
    (workouts : list Workout) : Z :=
  match workouts with
  | [] => currentStreak
  | workout :: rest =>
      let workoutDate := completed_at workout in
      let daysDiff := differenceInDays checkDate workoutDate in
      if daysDiff <=? 1
      then streak_loop workoutDate (currentStreak + 1) rest
      else currentStreak
  end.

(** [today] is [new Date()]; [workouts] is [null] when the query failed. *)
Definition currentStreak (today : Z) (workouts : option (list Workout)) : Z :=
  match workouts with
  | Some ws =>
      if 0 <? Z.of_nat (length ws) then streak_loop today 0 ws else 0
  | None => 0
  end.

(** [workouts?.length || 0] *)
Definition totalWorkouts (workouts : option (list Workout)) : Z :=
  Z.of_nat (length (arr workouts)).

(** The inner [for (let i = 0; i < 7; i++)] of the weekly activity. *)
Definition mark_days (weekStart : Z) (weeklyWorkouts : list bool)
    (workout : Workout) : list bool :=
  let workoutDate := completed_at workout in
  fold_left
    (fun acc i =>
       let dayToCheck := addDays weekStart (Z.of_nat i) in
       if isSameDay workoutDate dayToCheck then set_true i acc else acc)
    (seq 0 7) weeklyWorkouts.

(** [weeklyWorkouts]: [Array(7).fill(false)], then a mark for each workout
    on a day of the week that starts on Monday. *)
Definition weeklyWorkouts (now : Z) (workouts : option (list Workout))
  : list bool :=
  let weekStart := startOfWeek now 1 in
  fold_left (mark_days weekStart) (arr workouts) (repeat false 7).

End Dashboard.

(** ** pages/Progress.tsx: fetchProgressData *)
Module Progress.
Import Js DateFns PrimFloat.

Record SetRow := { set_weight : option Q; set_reps : option Z }.
Record Exercise := { ex_name : string }.
Record WorkoutExercise :=
  { exercise : option Exercise; sets : option (list SetRow) }.
Record Workout :=
  { completed_at : Z; workout_exercises : option (list WorkoutExercise) }.

(** [(set.weight || 0) * (set.reps || 0)]: the product of the two doubles. *)
Definition set_volume (set : SetRow) : float :=
  (double (num_or_0 (set_weight set)) * double (int_or_0 (set_reps set)))%float.

(** [weekVolume += ...] over the sets of one exercise entry. *)
Definition add_sets (weekVolume : float) (ss : list SetRow) : float :=
  fold_left (fun v s => (v + set_volume s)%float) ss weekVolume.

Definition add_workout (weekStart weekEnd : Z) (weekVolume : float)
    (workout : Workout) : float :=
  let workoutDate := completed_at workout in
  if ((weekStart <=? workoutDate) && (workoutDate <? weekEnd))%Z
  then fold_left (fun v we => add_sets v (arr (sets we)))
         (arr (workout_exercises workout)) weekVolume
  else weekVolume.

(** An entry of [weeklyVolume]; [wv_date] is the start of the bucket, whose
    rendering [format(weekStart, 'MMM d')] is the label. *)
Record WeekVolume := { wv_date : Z; wv_volume : float }.

(** One turn of [for (let i = 7; i >= 0; i--)].  [now] stands for each
    [new Date()] of the loop: they are taken instants apart. *)
Definition week_body (now : Z) (workouts : list Workout) (i : Z)
    (weeklyVolume : list WeekVolume) : list WeekVolume :=
  let weekStart := subDays now (i * 7) in
  let weekEnd := subDays now ((i - 1) * 7) in
  let weekVolume :=
    fold_left (add_workout weekStart weekEnd) workouts 0%float in
  if (i <? 7)%Z
  then weeklyVolume ++
         [{| wv_date := weekStart; wv_volume := Math_round weekVolume |}]
  else weeklyVolume.

Fixpoint week_loop (now : Z) (workouts : list Workout) (i : nat)
    (weeklyVolume : list WeekVolume) : list WeekVolume :=
  let weeklyVolume' := week_body now workouts (Z.of_nat i) weeklyVolume in
  match i with
  | O => weeklyVolume'
  | S j => week_loop now workouts j weeklyVolume'
  end.

Definition weeklyVolume (now : Z) (workouts : option (list Workout))
  : list WeekVolume :=
  week_loop now (arr workouts) 7 [].

(** The value type of [prMap] and an entry of [personalRecords]. *)
Record Best := { best_weight : Q; best_date : Z }.
Record PersonalRecord := { pr_exercise : string; pr_weight : Q; pr_date : Z }.

Definition PrMap := Map string Best.

(** [we.exercise?.name], [None] when it is falsy ([if (!exerciseName) return]). *)
Definition exerciseName (we : WorkoutExercise) : option string :=
  match exercise we with
  | Some {| ex_name := EmptyString |} => None
  | Some {| ex_name := n |} => Some n
  | None => None
  end.

Definition pr_set (exerciseName : string) (date : Z) (prMap : PrMap)
    (set : SetRow) : PrMap :=
  let weight := num_or_0 (set_weight set) in
  let existing := map_get String.eqb exerciseName prMap in
  let better :=
    match existing with
    | None => true
    | Some e => gtb weight (best_weight e)
    end in
  if better
  then map_set String.eqb exerciseName
         {| best_weight := weight; best_date := date |} prMap
  else prMap.

Definition pr_exercise_entry (date : Z) (prMap : PrMap)
    (we : WorkoutExercise) : PrMap :=
  match exerciseName we with
  | None => prMap
  | Some n => fold_left (pr_set n date) (arr (sets we)) prMap
  end.

Definition pr_workout (prMap : PrMap) (workout : Workout) : PrMap :=
  fold_left (pr_exercise_entry (completed_at workout))
    (arr (workout_exercises workout)) prMap.

Definition prMap_of (workouts : option (list Workout)) : PrMap :=
  fold_left pr_workout (arr workouts) [].

(** [Array.from(prMap.entries()).map(([exercise, data]) => ...)] *)
Definition pr_entries (prMap : PrMap) : list PersonalRecord :=
  map (fun '(exercise, data) =>
         {| pr_exercise := exercise;
            pr_weight := best_weight data;
            pr_date := best_date data |})
      (map_entries prMap).

Definition by_weight_desc (a b : PersonalRecord) : Q :=
  (pr_weight b - pr_weight a)%Q.

Definition personalRecords (workouts : option (list Workout))
  : list PersonalRecord :=
  slice_first 10
    (Array_sort by_weight_desc (pr_entries (prMap_of workouts))).

(** An entry of [monthlyWorkouts]; [dc_day] is the day, of which
    [format(day, 'd')] is the label. *)
Record DayCount := { dc_day : Z; dc_count : Z }.

(** [monthStart] stands for [startOfMonth(new Date())] and [today] for
    [new Date()]. *)
Definition monthlyWorkouts (monthStart today : Z)
    (workouts : option (list Workout)) : list DayCount :=
  let daysInRange := eachDayOfInterval monthStart today in
  map (fun day =>
         let count :=
           Z.of_nat (length (filter (fun w => isSameDay (completed_at w) day)
                               (arr workouts))) in
         {| dc_day := day; dc_count := count |})
      daysInRange.

(** [data.monthlyWorkouts.reduce((sum, d) => sum + d.count, 0) || 0] *)
Definition workoutsThisMonth (monthlyWorkouts : list DayCount) : Z :=
  fold_left (fun sum d => (sum + dc_count d)%Z) monthlyWorkouts 0%Z.

End Progress.

(** ** pages/Templates.tsx: ExerciseDetails.fetchHistory *)
Module ExerciseDetails.
Import Js DateFns PrimFloat.

Record SetRow := { set_weight : option Q; set_reps : option Z }.

(** The joined workout of a row.  [workout_id] is the foreign key the row
    carries in the store; the query does not select it and the code never
    reads it: it only names the workout an entry belongs to. *)
Record WorkoutRef :=
  { workout_id : string; completed_at : option Z; user_id : string }.

Record WorkoutExerciseRow :=
  { id : string; workout : option WorkoutRef; sets : option (list SetRow) }.

(** [workout?.user_id === user.id && workout?.completed_at] *)
Definition qualifies (user : string) (we : WorkoutExerciseRow) : bool :=
  match workout we with
  | Some w =>
      String.eqb (user_id w) user &&
      match completed_at w with Some _ => true | None => false end
  | None => false
  end.

(** [new Date(workout.completed_at)]; past the filter both are present
    ([new Date(null)] is the epoch). *)
Definition completedDate (we : WorkoutExerciseRow) : Z :=
  match workout we with
  | Some {| completed_at := Some t |} => t
  | _ => 0%Z
  end.

(** The variables the inner [sets.forEach] updates. *)
Record SetAcc :=
  { s_maxWeight : Q; s_dayMaxWeight : Q; s_dayVolume : float;
    s_totalSets : Z }.

Definition set_step (a : SetAcc) (set : SetRow) : SetAcc :=
  let weight := num_or_0 (set_weight set) in
  let reps := int_or_0 (set_reps set) in
  {| s_maxWeight := if gtb weight (s_maxWeight a) then weight else s_maxWeight a;
     s_dayMaxWeight :=
       if gtb weight (s_dayMaxWeight a) then weight else s_dayMaxWeight a;
     s_dayVolume := (s_dayVolume a + double weight * double reps)%float;
     s_totalSets := (s_totalSets a + 1)%Z |}.

(** The value type of [historyMap]. *)
Record DayStats := { d_maxWeight : Q; d_totalVolume : float }.

(** The variables the outer [userWorkouts.forEach] updates. *)
Record Acc :=
  { maxWeight : Q; totalSets : Z; historyMap : Map Z DayStats }.

Definition entry_step (a : Acc) (we : WorkoutExerciseRow) : Acc :=
  let dateKey := calendarDay (completedDate we) in
  let r := fold_left set_step (arr (sets we))
             {| s_maxWeight := maxWeight a; s_dayMaxWeight := 0;
                s_dayVolume := 0%float; s_totalSets := totalSets a |} in
  let existing :=
    match map_get Z.eqb dateKey (historyMap a) with
    | Some e => e
    | None => {| d_maxWeight := 0; d_totalVolume := 0%float |}
    end in
  {| maxWeight := s_maxWeight r;
     totalSets := s_totalSets r;
     historyMap :=
       map_set Z.eqb dateKey
         {| d_maxWeight := Math_max (d_maxWeight existing) (s_dayMaxWeight r);
            d_totalVolume :=
              (d_totalVolume existing + s_dayVolume r)%float |}
         (historyMap a) |}.

Record Stats :=
  { st_maxWeight : Q; st_totalSets : Z; st_timesPerformed : Z }.
Record ExerciseHistory :=
  { h_date : Z; h_maxWeight : Q; h_totalVolume : float }.

Definition by_date_asc (a b : ExerciseHistory) : Q :=
  inject_Z (dayKeyTime (h_date a) - dayKeyTime (h_date b)).

Definition userWorkouts (user : string)
    (workoutExercises : option (list WorkoutExerciseRow))
  : list WorkoutExerciseRow :=
  filter (qualifies user) (arr workoutExercises).

Definition accumulate (rows : list WorkoutExerciseRow) : Acc :=
  fold_left entry_step rows {| maxWeight := 0; totalSets := 0; historyMap := [] |}.

Definition stats (user : string)
    (workoutExercises : option (list WorkoutExerciseRow)) : Stats :=
  let rows := userWorkouts user workoutExercises in
  let a := accumulate rows in
  {| st_maxWeight := maxWeight a;
     st_totalSets := totalSets a;
     st_timesPerformed := Z.of_nat (length rows) |}.

Definition historyArray (user : string)
    (workoutExercises : option (list WorkoutExerciseRow))
  : list ExerciseHistory :=
  let a := accumulate (userWorkouts user workoutExercises) in
  slice_last 10
    (Array_sort by_date_asc
       (map (fun '(date, data) =>
               {| h_date := date;
                  h_maxWeight := d_maxWeight data;
                  h_totalVolume := d_totalVolume data |})
            (map_entries (historyMap a)))).

(** What [fetchHistory] hands to [setStats] and [setHistory]. *)
Definition fetchHistory (user : string)
    (workoutExercises : option (list WorkoutExerciseRow))
  : Stats * list ExerciseHistory :=
  (stats user workoutExercises, historyArray user workoutExercises).

End ExerciseDetails.

(** ** pages/ActiveWorkout.tsx: the set editor *)
Module ActiveWorkout.
Import Js.

Record Exercise := { ex_id : string; ex_name : string; muscle_group : string }.

Record SetData :=
  { id : string; set_number : Z; weight : option Q; reps : option Z;
    rpe : option Q; is_completed : bool }.

Record WorkoutExercise :=
  { we_id : string; exercise : Exercise; sets : list SetData }.

(** The row the store returns for
    [insert({ workout_exercise_id, set_number }).select().single()]:
    a fresh id, the other columns at their defaults. *)
Definition inserted_set (newId : string) (n : Z) : SetData :=
  {| id := newId; set_number := n; weight := None; reps := None;
     rpe := None; is_completed := false |}.

(** [inserted] is the id of the new row, [None] when the insert failed
    (the error is caught and the state is left as it was). *)
Definition addSet (exercises : list WorkoutExercise)
    (workoutExerciseId : string) (currentSets : list SetData)
    (inserted : option string) : list WorkoutExercise :=
  match inserted with
  | None => exercises
  | Some newId =>
      let data := inserted_set newId (Z.of_nat (length currentSets) + 1) in
      map (fun we =>
             if String.eqb (we_id we) workoutExerciseId
             then {| we_id := we_id we; exercise := exercise we;
                     sets := sets we ++ [data] |}
             else we)
          exercises
  end.

Definition deleteSet (exercises : list WorkoutExercise)
    (workoutExerciseId : string) (setId : string) : list WorkoutExercise :=
  map (fun we =>
         if String.eqb (we_id we) workoutExerciseId
         then {| we_id := we_id we; exercise := exercise we;
                 sets := filter (fun s => negb (String.eqb (id s) setId))
                           (sets we) |}
         else we)
      exercises.

(** The two buttons of an exercise card, [onClick={() => addSet(we.id,
    we.sets)}] and [onClick={() => deleteSet(we.id, set.id)}], pressed on
    the card of the entry [workoutExerciseId] as currently rendered. *)
Inductive Click :=
| ClickAddSet (workoutExerciseId : string) (inserted : option string)
| ClickDeleteSet (workoutExerciseId : string) (setId : string).

Definition card (exercises : list WorkoutExercise) (workoutExerciseId : string)
  : option WorkoutExercise :=
  find (fun we => String.eqb (we_id we) workoutExerciseId) exercises.

Definition click (exercises : list WorkoutExercise) (c : Click)
  : list WorkoutExercise :=
  match c with
  | ClickAddSet weId inserted =>
      match card exercises weId with
      | Some we => addSet exercises (we_id we) (sets we) inserted
      | None => exercises
      end
  | ClickDeleteSet weId setId =>
      match card exercises weId with
      | Some we => deleteSet exercises (we_id we) setId
      | None => exercises
      end
  end.

Definition clicks (exercises : list WorkoutExercise) (cs : list Click)
  : list WorkoutExercise :=
  fold_left click cs exercises.

(** [fetchWorkout]: the sets of a card as loaded,
    [(we.sets || []).sort((a, b) => a.set_number - b.set_number)]. *)
Definition by_set_number (a b : SetData) : Q :=
  inject_Z (set_number a - set_number b).

Definition loaded_sets (sets : option (list SetData)) : list SetData :=
  Array_sort by_set_number (arr sets).

(** [addExercise]: [insertedExercise] is the id of the new
    [workout_exercises] row, [None] when that insert failed (the error is
    thrown and caught, the state stays); [firstSet] is the id of the row of
    the first set, [None] when the store returned none. *)
Definition addExercise (exercises : list WorkoutExercise) (ex : Exercise)
    (insertedExercise : option string) (firstSet : option string)
  : list WorkoutExercise :=
  match insertedExercise with
  | None => exercises
  | Some newId =>
      exercises ++
      [{| we_id := newId; exercise := ex;
          sets := match firstSet with
                  | Some setId => [inserted_set setId 1]
                  | None => []
                  end |}]
  end.

(** The column [updateSet] writes, with its new value. *)
Inductive SetField :=
| FieldWeight (value : option Q)
| FieldReps (value : option Z)
| FieldRpe (value : option Q).

Definition update_field (s : SetData) (f : SetField) : SetData :=
  match f with
  | FieldWeight v =>
      {| id := id s; set_number := set_number s; weight := v; reps := reps s;
         rpe := rpe s; is_completed := is_completed s |}
  | FieldReps v =>
      {| id := id s; set_number := set_number s; weight := weight s; reps := v;
         rpe := rpe s; is_completed := is_completed s |}
  | FieldRpe v =>
      {| id := id s; set_number := set_number s; weight := weight s;
         reps := reps s; rpe := v; is_completed := is_completed s |}
  end.

Definition updateSet (exercises : list WorkoutExercise) (setId : string)
    (f : SetField) : list WorkoutExercise :=
  map (fun we =>
         {| we_id := we_id we; exercise := exercise we;
            sets := map (fun s => if String.eqb (id s) setId
                                  then update_field s f else s)
                        (sets we) |})
      exercises.

Definition toggleSetComplete (exercises : list WorkoutExercise)
    (setId : string) (isCompleted : bool) : list WorkoutExercise :=
  map (fun we =>
         {| we_id := we_id we; exercise := exercise we;
            sets := map (fun s =>
                           if String.eqb (id s) setId
                           then {| id := id s; set_number := set_number s;
                                   weight := weight s; reps := reps s;
                                   rpe := rpe s;
                                   is_completed := negb isCompleted |}
                           else s)
                        (sets we) |})
      exercises.

Definition removeExercise (exercises : list WorkoutExercise)
    (workoutExerciseId : string) : list WorkoutExercise :=
  filter (fun we => negb (String.eqb (we_id we) workoutExerciseId)) exercises.

Definition formatTime (seconds : Z) : string :=
  let hrs := (seconds / 3600)%Z in
  let mins := (Z.rem seconds 3600 / 60)%Z in
  let secs := Z.rem seconds 60 in
  if (0 <? hrs)%Z
  then (toString hrs ++ ":" ++ padStart (toString mins) 2 "0" ++ ":" ++
        padStart (toString secs) 2 "0")%string
  else (toString mins ++ ":" ++ padStart (toString secs) 2 "0")%string.

(** [groupedExercises]: the [reduce] over the filtered exercises into an
    object keyed by muscle group.  The object is an association list read
    by key; [None] is the [TypeError] of [acc[key].push] when the key names
    an inherited member, which is truthy and no array. *)
Definition group_step (acc : option (Map string (list Exercise)))
    (ex : Exercise) : option (Map string (list Exercise)) :=
  match acc with
  | None => None
  | Some m =>
      let key := muscle_group ex in
      if inherited key then None
      else
        match map_get String.eqb key m with
        | None => Some (map_set String.eqb key [ex] m)
        | Some l => Some (map_set String.eqb key (l ++ [ex]) m)
        end
  end.

Definition groupedExercises (filteredExercises : list Exercise)
  : option (Map string (list Exercise)) :=
  fold_left group_step filteredExercises (Some []).

(** The handlers of the editor as the page wires them to its buttons and
    inputs; the add and delete buttons of a card as in [click]. *)
Inductive Action :=
| DoAddExercise (ex : Exercise) (insertedExercise firstSet : option string)
| DoAddSet (workoutExerciseId : string) (inserted : option string)
| DoUpdateSet (setId : string) (f : SetField)
| DoToggleSet (setId : string) (isCompleted : bool)
| DoDeleteSet (workoutExerciseId : string) (setId : string)
| DoRemoveExercise (workoutExerciseId : string).

Definition act (exercises : list WorkoutExercise) (a : Action)
  : list WorkoutExercise :=
  match a with
  | DoAddExercise ex insertedExercise firstSet =>
      addExercise exercises ex insertedExercise firstSet
  | DoAddSet weId inserted => click exercises (ClickAddSet weId inserted)
  | DoUpdateSet setId f => updateSet exercises setId f
  | DoToggleSet setId isCompleted => toggleSetComplete exercises setId isCompleted
  | DoDeleteSet weId setId => click exercises (ClickDeleteSet weId setId)
  | DoRemoveExercise weId => removeExercise exercises weId
  end.

End ActiveWorkout.

(** ** pages/Templates.tsx: Templates.startFromTemplate *)
Module Templates.
Import Js.
Local Open Scope Z_scope.

(** [for (let i = 1; i <= numSets; i++)]: the set numbers sent to the store,
    in order; [fuel] bounds the turns of the loop. *)
Fixpoint insert_sets (fuel : nat) (i numSets : Z) : list Z :=
  match fuel with
  | O => []
  | S fuel' => if i <=? numSets then i :: insert_sets fuel' (i + 1) numSets else []
  end.

(** [te.target_sets || 3] *)
Definition numSets (target_sets : option Z) : Z :=
  match target_sets with
  | Some 0 => 3
  | Some n => n
  | None => 3
  end.

(** The set numbers inserted for one exercise of the template. *)
Definition template_set_numbers (target_sets : option Z) : list Z :=
  insert_sets (Z.to_nat (numSets target_sets)) 1 (numSets target_sets).

End Templates.

(** ** pages/History.tsx: formatDuration *)
Module History.
Import Js.
Local Open Scope string_scope.
Local Open Scope Z_scope.

Definition formatDuration (seconds : option Z) : string :=
  match seconds with
  | None => "-"
  | Some 0 => "-"
  | Some seconds =>
      let mins := seconds / 60 in
      if mins <? 60 then toString mins ++ "m"
      else
        let hours := mins / 60 in
        let remainingMins := Z.rem mins 60 in
        toString hours ++ "h " ++ toString remainingMins ++ "m"
  end.

End History.

(* ================================================================== *)
(** * Part II: vocabulary of the specification                         *)
(* ================================================================== *)

(** ** The unit conversion in exact arithmetic.  It follows the words of
    the specification, multiply by 2.20462 and round to one decimal place,
    with the formula of [convertWeight] read on rationals: the product is
    exact and [Math.round] decides ties.  Where the binary64 result of the
    page is the double of this one is a property of Part III. *)
Module Exact.
Import Js Settings.
Local Open Scope string_scope.

Definition KG_TO_LBS : Q := 220462 # 100000.

(** [Math.round] of a rational: nearest integer, ties towards +infinity. *)
Definition Math_round (x : Q) : Z := Qfloor (x + (1 # 2)).

Definition convertWeight (unit : UnitPreference) (weight : Q)
    (toUnit : option UnitPreference) : Q :=
  let targetUnit := str_or toUnit unit in
  if String.eqb targetUnit "lbs"
  then inject_Z (Math_round (weight * KG_TO_LBS * 10)) / 10
  else weight.

End Exact.

(** ** Stored weights: multiples of 0.01 kg.  The conversion of the page
    compared, weight by weight, with the exact one, and the order of its
    results along the weights; both are computations over a range of
    weights. *)
Module Stored.
Import Js Settings PrimFloat SpecFloat FloatOps.
Local Open Scope Z_scope.

(** [Math_round] with its division by a power of two done by shifts. *)
Definition Math_round_shift (x : float) : float :=
  match Prim2SF x with
  | S754_finite s m e =>
      if 0 <=? e then x
      else
        let v := if s then Z.neg m else Z.pos m in
        match Z.shiftr (Z.shiftr v (- e - 1) + 1) 1 with
        | Z0 => if s then (-0)%float else 0%float
        | Z.pos p => SF2Prim (S754_finite false p 0)
        | Z.neg p => SF2Prim (S754_finite true p 0)
        end
  | _ => x
  end.

(** The exact conversion of [k] hundredths of a kilogram, in tenths of a
    pound: [k * 0.220462] rounded to the nearest integer, ties upwards. *)
Definition tenths (k : Z) : Z := (2 * (k * 220462) + 1000000) / 2000000.

(** The comparison for the weights [k], [k + 1], ... ([fuel] of them):
    the conversion of [k] hundredths is the double of [n] tenths, where
    [n] and the remainder [r] follow [k] without a division:
    [2 * (k * 220462) + 1000000 = n * 2000000 + r]. *)
Fixpoint agree_from (fuel : nat) (k n r : Z) : bool :=
  match fuel with
  | O => true
  | S fuel' =>
      Leibniz.eqb
        (Math_round_shift (double (k # 100) * KG_TO_LBS * 10) / 10)%float
        (double (n # 10)) &&
      (let r' := r + 440924 in
       if r' <? 2000000 then agree_from fuel' (k + 1) n r'
       else agree_from fuel' (k + 1) (n + 1) (r' - 2000000))
  end.

(** [x] is [f k], a number that compares with itself (no NaN), and the
    numbers [f k], [f (k + 1)], ..., [f (k + fuel)] never go down. *)
Fixpoint ascending (f : Z -> float) (fuel : nat) (k : Z) (x : float) : bool :=
  (x <=? x)%float &&
  match fuel with
  | O => true
  | S fuel' =>
      let y := f (k + 1) in
      (x <=? y)%float && ascending f fuel' (k + 1) y
  end.

End Stored.

Module Spec.
Import Js DateFns PrimFloat.

(** *** Sorting: [before cmp x y] when the comparator does not ask for [y]
    to come first. *)
Definition before {A : Type} (cmp : A -> A -> Q) (x y : A) : Prop :=
  (cmp x y <= 0)%Q.

(** *** Unit preference: the value the specification promises for a stored
    value, ['lbs'] for ['lbs'] and ['kg'] in every other case. *)
Definition promised_unit (saved : option string) : string :=
  match saved with
  | Some s => if String.eqb s "lbs" then "lbs"%string else "kg"%string
  | None => "kg"%string
  end.

(** *** Streak *)

(** Every workout of [ws] lies at most one full day before the check date
    it is compared with: the first against [checkDate], each later one
    against its predecessor. *)
Fixpoint chained (checkDate : Z) (ws : list Dashboard.Workout) : Prop :=
  match ws with
  | [] => True
  | w :: rest =>
      (differenceInDays checkDate (Dashboard.completed_at w) <= 1)%Z /\
      chained (Dashboard.completed_at w) rest
  end.

(** The check date after the workouts [ws] were counted. *)
Definition check_after (checkDate : Z) (ws : list Dashboard.Workout) : Z :=
  last (map Dashboard.completed_at ws) checkDate.

(** The calendar days that carry a completed workout, each once. *)
Definition workout_days (ws : list Dashboard.Workout) : list Z :=
  nodup Z.eq_dec (map (fun w => calendarDay (Dashboard.completed_at w)) ws).

Definition has_workout (day : Z) (ws : list Dashboard.Workout) : bool :=
  existsb (fun w => calendarDay (Dashboard.completed_at w) =? day)%Z ws.

(** The number of consecutive days with a workout, from [day] backward;
    [n] bounds the walk (there are at most [length ws] such days). *)
Fixpoint days_back (n : nat) (day : Z) (ws : list Dashboard.Workout) : Z :=
  match n with
  | O => 0
  | S n' =>
      if has_workout day ws
      then (1 + days_back n' (day - 1) ws)%Z
      else 0%Z
  end.

(** The streak in the glossary's words: consecutive calendar days with a
    completed workout, counted backward from today, or from yesterday when
    today has none yet (the one-day grace). *)
Definition streak_days (today : Z) (ws : list Dashboard.Workout) : Z :=
  let d := calendarDay today in
  if has_workout d ws
  then days_back (length ws) d ws
  else days_back (length ws) (d - 1)%Z ws.

(** *** Set numbers: unique, and dense from 1. *)
Definition unique_dense (numbers : list Z) : Prop :=
  NoDup numbers /\
  Forall (fun k => 1 <= k <= Z.of_nat (length numbers))%Z numbers.

Definition set_numbers (we : ActiveWorkout.WorkoutExercise) : list Z :=
  map ActiveWorkout.set_number (ActiveWorkout.sets we).

(** *** Sessions: the distinct workouts among the qualifying rows. *)
Definition row_workout (we : ExerciseDetails.WorkoutExerciseRow) : string :=
  match ExerciseDetails.workout we with
  | Some w => ExerciseDetails.workout_id w
  | None => EmptyString
  end.

Definition qualifying_workouts (user : string)
    (rows : option (list ExerciseDetails.WorkoutExerciseRow)) : list string :=
  nodup string_dec (map row_workout (ExerciseDetails.userWorkouts user rows)).

(** *** Personal records *)

(** A logged set as the extraction meets it: the name of its exercise, its
    weight (null read as 0) and the completion date of its workout. *)
Record Logged := { l_name : string; l_weight : Q; l_date : Z }.

Definition logged_entry (date : Z) (we : Progress.WorkoutExercise)
  : list Logged :=
  match Progress.exerciseName we with
  | None => []
  | Some n =>
      map (fun s => {| l_name := n;
                       l_weight := num_or_0 (Progress.set_weight s);
                       l_date := date |})
          (arr (Progress.sets we))
  end.

Definition logged_workout (w : Progress.Workout) : list Logged :=
  flat_map (logged_entry (Progress.completed_at w))
    (arr (Progress.workout_exercises w)).

(** The sets of all named exercises, in the order of the traversal. *)
Definition logged_sets (workouts : option (list Progress.Workout))
  : list Logged :=
  flat_map logged_workout (arr workouts).

(** The sets logged for one exercise name, in the order of the traversal. *)
Definition logged_for (name : string)
    (workouts : option (list Progress.Workout)) : list Logged :=
  filter (fun l => String.eqb (l_name l) name) (logged_sets workouts).

(** The sets one workout logs for an exercise name. *)
Definition logged_in (name : string) (w : Progress.Workout) : list Logged :=
  filter (fun l => String.eqb (l_name l) name) (logged_workout w).

(** [x] is the heaviest set of [ls], and the first one of that weight. *)
Definition first_max (ls : list Logged) (x : Logged) : Prop :=
  exists pre post,
    ls = pre ++ x :: post /\
    (forall y, In y pre -> (l_weight y < l_weight x)%Q) /\
    (forall y, In y post -> (l_weight y <= l_weight x)%Q).

Definition record_of (x : Logged) : Progress.PersonalRecord :=
  {| Progress.pr_exercise := l_name x;
     Progress.pr_weight := l_weight x;
     Progress.pr_date := l_date x |}.

(** Heavier records first. *)
Definition heavier_first (a b : Progress.PersonalRecord) : Prop :=
  (Progress.pr_weight b <= Progress.pr_weight a)%Q.

(** *** Per-exercise history *)

(** The calendar day of a row's workout. *)
Definition row_day (we : ExerciseDetails.WorkoutExerciseRow) : Z :=
  calendarDay (ExerciseDetails.completedDate we).

(** The sets logged on a day, over the rows of that day. *)
Definition day_sets (day : Z) (rows : list ExerciseDetails.WorkoutExerciseRow)
  : list ExerciseDetails.SetRow :=
  flat_map (fun we => arr (ExerciseDetails.sets we))
    (filter (fun we => (row_day we =? day)%Z) rows).

Definition weight_of (s : ExerciseDetails.SetRow) : Q :=
  num_or_0 (ExerciseDetails.set_weight s).

(** Weight x reps of a set: the product of the two doubles. *)
Definition volume_of_set (s : ExerciseDetails.SetRow) : float :=
  (double (weight_of s) * double (int_or_0 (ExerciseDetails.set_reps s)))%float.

(** The volume of the sets of one row: their running sum, from 0. *)
Definition volume_of (ss : list ExerciseDetails.SetRow) : float :=
  fold_left (fun v s => (v + volume_of_set s)%float) ss 0%float.

(** The volume of some rows: the running sum, from 0, of the volumes of
    the rows in the order of the query. *)
Definition rows_volume (rows : list ExerciseDetails.WorkoutExerciseRow)
  : float :=
  fold_left (fun t we => (t + volume_of (arr (ExerciseDetails.sets we)))%float)
    rows 0%float.

(** The total volume of a day, over the rows of that day. *)
Definition day_volume (day : Z)
    (rows : list ExerciseDetails.WorkoutExerciseRow) : float :=
  rows_volume (filter (fun we => (row_day we =? day)%Z) rows).

(** [m] is the greatest weight among the sets; it is 0 when there is no set
    or no weight above 0. *)
Definition max_weight_of (ss : list ExerciseDetails.SetRow) (m : Q) : Prop :=
  (forall s, In s ss -> (weight_of s <= m)%Q) /\
  (m = 0%Q \/ exists s, In s ss /\ m = weight_of s) /\
  (0 <= m)%Q.


End Spec.


(** ** The loops seen one key at a time: what the personal-record loop does
    to the entry of one exercise, and the history loop to the value of one
    day.  The lemmas of Part III relate them to the loops. *)
Module Views.
Import Js DateFns Spec PrimFloat.
Local Open Scope Q_scope.

Section Records.
Import Progress.

Definition best_of (x : Logged) : Best :=
  {| best_weight := l_weight x; best_date := l_date x |}.

(** [pr_set] on a logged set. *)
Definition pr_put (m : PrMap) (l : Logged) : PrMap :=
  let better :=
    match map_get String.eqb (l_name l) m with
    | None => true
    | Some e => gtb (l_weight l) (best_weight e)
    end in
  if better then map_set String.eqb (l_name l) (best_of l) m else m.

(** What [pr_put] does to the entry of one name. *)
Definition best_step (cur : option Best) (l : Logged) : option Best :=
  match cur with
  | None => Some (best_of l)
  | Some e => if gtb (l_weight l) (best_weight e) then Some (best_of l) else cur
  end.

End Records.

Section History.
Import ExerciseDetails.

(** The two day variables of the inner loop, each on its own. *)
Definition day_max (ss : list SetRow) (m0 : Q) : Q :=
  fold_left (fun m s => if gtb (weight_of s) m then weight_of s else m) ss m0.

Definition day_vol (ss : list SetRow) (v0 : float) : float :=
  fold_left (fun v s => (v + volume_of_set s)%float) ss v0.

Definition zero_day : DayStats :=
  {| d_maxWeight := 0; d_totalVolume := 0%float |}.

(** The value written for the day of a row, from the value found there. *)
Definition merge (existing : DayStats) (we : WorkoutExerciseRow) : DayStats :=
  {| d_maxWeight :=
       Math_max (d_maxWeight existing) (day_max (arr (sets we)) 0);
     d_totalVolume :=
       (d_totalVolume existing + day_vol (arr (sets we)) 0)%float |}.

Definition or_zero (cur : option DayStats) : DayStats :=
  match cur with
  | Some e => e
  | None => zero_day
  end.

Definition hist_put (m : Map Z DayStats) (we : WorkoutExerciseRow)
  : Map Z DayStats :=
  map_set Z.eqb (row_day we)
    (merge (or_zero (map_get Z.eqb (row_day we) m)) we) m.

(** What the loop does to the value of one day. *)
Definition day_step (cur : option DayStats) (we : WorkoutExerciseRow)
  : option DayStats :=
  Some (merge (or_zero cur) we).

(** The entries of the map as history records, before sorting. *)
Definition history_entries (rows : list WorkoutExerciseRow)
  : list ExerciseHistory :=
  map (fun '(date, data) =>
         {| h_date := date;
            h_maxWeight := d_maxWeight data;
            h_totalVolume := d_totalVolume data |})
      (map_entries (historyMap (accumulate rows))).

End History.

End Views.

(** ** Sample inputs of the examples *)
Module Samples.
Local Open Scope string_scope.
Local Open Scope list_scope.

Section OfDashboard.
Import Dashboard.
Definition at_time (t : Z) : Workout :=
  {| id := "w"; name := "Workout"; completed_at := t |}.
End OfDashboard.

Section OfProgress.
Import Progress.
Definition one_set (w : Q) (r : Z) : SetRow :=
  {| set_weight := Some w; set_reps := Some r |}.

Definition workout_at (t : Z) (ss : list SetRow) : Workout :=
  {| completed_at := t;
     workout_exercises :=
       Some [{| exercise := Some {| ex_name := "Bench Press" |};
                sets := Some ss |}] |}.

(** A workout with one exercise entry. *)
Definition lift (name : string) (t : Z) (ss : list SetRow) : Workout :=
  {| completed_at := t;
     workout_exercises :=
       Some [{| exercise := Some {| ex_name := name |}; sets := Some ss |}] |}.

Definition no_weight (r : Z) : SetRow :=
  {| set_weight := None; set_reps := Some r |}.

(** Curl entered in a workout, with no set. *)
Definition curl_no_sets : Workout := lift "Curl" 7 [].

(** Eleven exercises with a weight each; then Curl, in two workouts,
    without a weight in any of its three sets. *)
Definition eleven : list Workout :=
  [lift "A" 1 [one_set 10 5]; lift "B" 2 [one_set 20 5];
   lift "C" 3 [one_set 30 5]; lift "D" 4 [one_set 40 5];
   lift "E" 5 [one_set 50 5]; lift "F" 6 [one_set 60 5];
   lift "G" 7 [one_set 70 5]; lift "H" 8 [one_set 80 5];
   lift "I" 9 [one_set 90 5]; lift "J" 10 [one_set 100 5];
   lift "K" 11 [one_set 110 5]].

Definition curl_first : Workout := lift "Curl" 20 [no_weight 12; no_weight 10].
Definition curl_again : Workout := lift "Curl" 30 [no_weight 8].
End OfProgress.

Section OfEditor.
Import ActiveWorkout.
Local Open Scope Z_scope.
Definition numbered (i : string) (n : Z) : SetData :=
  {| id := i; set_number := n; weight := None; reps := None; rpe := None;
     is_completed := false |}.

Definition bench : WorkoutExercise :=
  {| we_id := "we1";
     exercise := {| ex_id := "e1"; ex_name := "Bench Press";
                    muscle_group := "Chest" |};
     sets := [numbered "s1" 1; numbered "s2" 2; numbered "s3" 3] |}.

(** A session of the editor, from the empty page on. *)
Definition session : list Action :=
  [DoAddExercise (exercise bench) (Some "we1") (Some "s1");
   DoAddSet "we1" (Some "s2");
   DoAddSet "we1" (Some "s3");
   DoUpdateSet "s2" (FieldReps (Some 8));
   DoToggleSet "s2" false;
   DoDeleteSet "we1" "s3";
   DoAddSet "we1" (Some "s4");
   DoAddExercise (exercise bench) (Some "we2") None;
   DoRemoveExercise "we2"].
End OfEditor.

Section OfExerciseDetails.
Import ExerciseDetails.
Definition row (we workout_ : string) (ss : list SetRow) : WorkoutExerciseRow :=
  {| id := we;
     workout := Some {| workout_id := workout_; completed_at := Some 0%Z;
                        user_id := "u" |};
     sets := Some ss |}.

Definition logged (workout_ : string) (user : string) (t : option Z)
    (ss : list (Q * Z)) : WorkoutExerciseRow :=
  {| id := "we";
     workout := Some {| workout_id := workout_; completed_at := t;
                        user_id := user |};
     sets := Some (map (fun '(w, r) => {| set_weight := Some w;
                                          set_reps := Some r |}) ss) |}.
End OfExerciseDetails.

End Samples.

(** ** Vocabulary of the further properties (Part IV) *)
Module More.
Import Js DateFns PrimFloat.

(** The sets of a workout, in the order of its exercise entries. *)
Definition workout_sets (w : Progress.Workout) : list Progress.SetRow :=
  flat_map (fun we => arr (Progress.sets we))
    (arr (Progress.workout_exercises w)).

Definition in_bucket (weekStart weekEnd : Z) (w : Progress.Workout) : bool :=
  ((weekStart <=? Progress.completed_at w) &&
   (Progress.completed_at w <? weekEnd))%Z.

(** The sets of the workouts completed from [weekStart] up to, not
    including, [weekEnd], in the order of the query. *)
Definition sets_between (weekStart weekEnd : Z) (ws : list Progress.Workout)
  : list Progress.SetRow :=
  flat_map workout_sets (filter (in_bucket weekStart weekEnd) ws).

(** The volume of some sets: the running sum, from 0, of weight x reps. *)
Definition sets_volume (ss : list Progress.SetRow) : float :=
  fold_left (fun v s => (v + Progress.set_volume s)%float) ss 0%float.

Definition volume_between (weekStart weekEnd : Z)
    (ws : list Progress.Workout) : float :=
  sets_volume (sets_between weekStart weekEnd ws).

(** A workout completed on one of the days from [first] to [last]. *)
Definition in_days (first last : Z) (w : Progress.Workout) : bool :=
  ((first <=? calendarDay (Progress.completed_at w)) &&
   (calendarDay (Progress.completed_at w) <=? last))%Z.

(** All sets of some rows of the exercise, in order. *)
Definition all_sets (rows : list ExerciseDetails.WorkoutExerciseRow)
  : list ExerciseDetails.SetRow :=
  flat_map (fun we => arr (ExerciseDetails.sets we)) rows.

(** *** Texts built from numbers *)

(** A decimal digit, and a text of decimal digits only. *)
Definition is_digit (c : ascii) : bool :=
  ((48 <=? nat_of_ascii c) && (nat_of_ascii c <=? 57))%nat.

Fixpoint all_digits (s : string) : bool :=
  match s with
  | EmptyString => true
  | String c s' => is_digit c && all_digits s'
  end.

(** The two-character fields of the clock. *)
Definition two (k : Z) : string := padStart (toString k) 2 "0".

(** *** The editor *)

(** The invariant of the editor: one card per id, and on every card set
    numbers that are unique and dense from 1. *)
Definition editor_ok (exercises : list ActiveWorkout.WorkoutExercise) : Prop :=
  NoDup (map ActiveWorkout.we_id exercises) /\
  Forall (fun we => Spec.unique_dense (Spec.set_numbers we)) exercises.

(** What an action needs to keep the invariant: the store hands out an id
    no card has yet, and a deleted set is the one with the highest number
    of its card. *)
Definition safe (exercises : list ActiveWorkout.WorkoutExercise)
    (a : ActiveWorkout.Action) : Prop :=
  match a with
  | ActiveWorkout.DoAddExercise _ (Some newId) _ =>
      ~ In newId (map ActiveWorkout.we_id exercises)
  | ActiveWorkout.DoDeleteSet weId setId =>
      forall we s,
        ActiveWorkout.card exercises weId = Some we ->
        In s (ActiveWorkout.sets we) -> ActiveWorkout.id s = setId ->
        ActiveWorkout.set_number s = Z.of_nat (length (ActiveWorkout.sets we))
  | _ => True
  end.

Fixpoint all_safe (exercises : list ActiveWorkout.WorkoutExercise)
    (actions : list ActiveWorkout.Action) : Prop :=
  match actions with
  | [] => True
  | a :: rest => safe exercises a /\ all_safe (ActiveWorkout.act exercises a) rest
  end.

(** The group of a key once the exercises [es] were added to a group that
    held [cur]. *)
Definition grown (A : Type) (cur : option (list A)) (es : list A)
  : option (list A) :=
  match es, cur with
  | [], _ => cur
  | _, None => Some es
  | _, Some l => Some (l ++ es)
  end.

End More.

(* ================================================================== *)
(** * Part III: the properties                                         *)
(* ================================================================== *)

(** ** Facts about the JavaScript primitives *)
Section MapFacts.
Import Js.
Variables (K V : Type) (eqb : K -> K -> bool).
Hypothesis eqb_eq : forall x y, eqb x y = true <-> x = y.

Lemma eqb_refl_true (k : K) : eqb k k = true.
Proof. apply eqb_eq. reflexivity. Qed.

Lemma map_get_set (k k' : K) (v : V) (m : Map K V) :
  map_get eqb k (map_set eqb k' v m) =
  if eqb k k' then Some v else map_get eqb k m.
Proof.
  induction m as [|[k0 v0] m IH]; cbn [map_set map_get].
  - reflexivity.
  - destruct (eqb k' k0) eqn:E0; cbn [map_get].
    + apply eqb_eq in E0. subst k0.
      destruct (eqb k k'); reflexivity.
    + destruct (eqb k k0) eqn:E1.
      * destruct (eqb k k') eqn:E2; [|reflexivity].
        apply eqb_eq in E1, E2. subst. rewrite eqb_refl_true in E0. discriminate.
      * exact IH.
Qed.

Lemma map_set_keys (k : K) (v : V) (m : Map K V) :
  map fst (map_set eqb k v m) = map fst m \/
  (~ In k (map fst m) /\ map fst (map_set eqb k v m) = map fst m ++ [k]).
Proof.
  induction m as [|[k0 v0] m IH]; cbn [map_set map fst].
  - right. split; [intros [] | reflexivity].
  - destruct (eqb k k0) eqn:E.
    + left. reflexivity.
    + cbn [map fst]. destruct IH as [-> | [Hn ->]].
      * left. reflexivity.
      * right. split; [|reflexivity].
        intros [<- | H]; [|tauto].
        rewrite eqb_refl_true in E. discriminate.
Qed.

Lemma map_set_NoDup (k : K) (v : V) (m : Map K V) :
  NoDup (map fst m) -> NoDup (map fst (map_set eqb k v m)).
Proof.
  intros H. destruct (map_set_keys k v m) as [-> | [Hn ->]]; [exact H|].
  apply NoDup_app; [exact H | repeat constructor; intros [] |].
  intros x Hx [<- | []]. tauto.
Qed.

Lemma map_get_In (k : K) (v : V) (m : Map K V) :
  map_get eqb k m = Some v -> In (k, v) m.
Proof.
  induction m as [|[k0 v0] m IH]; cbn [map_get]; [discriminate|].
  destruct (eqb k k0) eqn:E.
  - apply eqb_eq in E. intros [= ->]. left. congruence.
  - intros H. right. auto.
Qed.

Lemma In_map_get (k : K) (v : V) (m : Map K V) :
  NoDup (map fst m) -> In (k, v) m -> map_get eqb k m = Some v.
Proof.
  induction m as [|[k0 v0] m IH]; cbn [map_get map fst]; [easy|].
  intros Hnd [[= -> ->] | Hin].
  - rewrite eqb_refl_true. reflexivity.
  - inversion Hnd as [|? ? Hnot Hnd']; subst.
    destruct (eqb k k0) eqn:E.
    + apply eqb_eq in E. subst k0. exfalso. apply Hnot.
      change k with (fst (k, v)). apply in_map. exact Hin.
    + auto.
Qed.

End MapFacts.

Section SortFacts.
Import Js Spec.
Variables (A : Type) (cmp : A -> A -> Q).

Hypothesis before_total : forall x y, before cmp x y \/ before cmp y x.
Hypothesis before_trans : forall x y z, before cmp x y -> before cmp y z -> before cmp x z.

Lemma sort_insert_perm (x : A) (l : list A) :
  Permutation (sort_insert cmp x l) (x :: l).
Proof.
  induction l as [|y l IH]; cbn [sort_insert]; [apply Permutation_refl|].
  destruct (Qle_bool (cmp x y) 0); [apply Permutation_refl|].
  eapply perm_trans; [apply perm_skip, IH | apply perm_swap].
Qed.

Lemma Array_sort_perm (l : list A) : Permutation (Array_sort cmp l) l.
Proof.
  induction l as [|x l IH]; cbn [Array_sort]; [constructor|].
  eapply perm_trans; [apply sort_insert_perm | apply perm_skip, IH].
Qed.

Lemma sort_insert_sorted (x : A) (l : list A) :
  StronglySorted (before cmp) l -> StronglySorted (before cmp) (sort_insert cmp x l).
Proof.
  induction l as [|y l IH]; intros Hs; cbn [sort_insert].
  - repeat constructor.
  - inversion Hs as [|? ? Hl Hy]; subst.
    destruct (Qle_bool (cmp x y) 0) eqn:E.
    + apply Qle_bool_iff in E.
      constructor; [exact Hs|]. constructor; [exact E|].
      eapply Forall_impl; [|exact Hy]. intros z Hz. eapply before_trans; eauto.
    + assert (Hyx : before cmp y x).
      { destruct (before_total x y) as [H|H]; [|exact H].
        apply Qle_bool_iff in H. unfold before in *. congruence. }
      constructor; [apply IH, Hl|].
      rewrite Forall_forall in *. intros z Hz.
      apply (Permutation_in _ (sort_insert_perm x l)) in Hz.
      destruct Hz as [<- | Hz]; auto.
Qed.

Lemma Array_sort_sorted (l : list A) : StronglySorted (before cmp) (Array_sort cmp l).
Proof.
  induction l as [|x l IH]; cbn [Array_sort]; [constructor|].
  apply sort_insert_sorted, IH.
Qed.

End SortFacts.

Section SliceFacts.
Variables (A : Type) (R : A -> A -> Prop).

Lemma StronglySorted_app_inv (l1 l2 : list A) :
  StronglySorted R (l1 ++ l2) ->
  StronglySorted R l1 /\ StronglySorted R l2 /\
  forall x y, In x l1 -> In y l2 -> R x y.
Proof.
  induction l1 as [|a l1 IH]; cbn [app]; intros H.
  - repeat split; [constructor | exact H | intros x y []].
  - inversion H as [|? ? Hs Ha]; subst.
    destruct (IH Hs) as (H1 & H2 & H12).
    rewrite Forall_app in Ha. destruct Ha as [Ha1 Ha2].
    repeat split; [constructor; assumption | exact H2 |].
    intros x y [<- | Hx] Hy; [|auto].
    rewrite Forall_forall in Ha2. auto.
Qed.

Lemma StronglySorted_firstn (n : nat) (l : list A) :
  StronglySorted R l -> StronglySorted R (firstn n l).
Proof.
  intros H. rewrite <- (firstn_skipn n l) in H.
  apply StronglySorted_app_inv in H. tauto.
Qed.


Lemma StronglySorted_split (n : nat) (l : list A) :
  StronglySorted R l ->
  forall x y, In x (firstn n l) -> In y (skipn n l) -> R x y.
Proof.
  intros H. rewrite <- (firstn_skipn n l) in H.
  apply StronglySorted_app_inv in H. tauto.
Qed.

Lemma fold_left_flat_map (B C : Type) (f : C -> B -> C) (g : A -> list B)
    (l : list A) (c : C) :
  fold_left f (flat_map g l) c =
  fold_left (fun c x => fold_left f (g x) c) l c.
Proof.
  revert c. induction l as [|x l IH]; intros c; cbn [flat_map fold_left].
  - reflexivity.
  - rewrite fold_left_app. apply IH.
Qed.

End SliceFacts.

Section SettingsFacts.
Import PrimFloat SpecFloat FloatOps.
Import Js Settings Stored.
Local Open Scope string_scope.
Local Open Scope Q_scope.



(** Rounding [v / 2^a] to the nearest integer, by division and by shifts. *)
Lemma round_by_shifts (v a : Z) :
  (0 < a)%Z ->
  ((2 * v + 2 ^ a) / (2 * 2 ^ a))%Z = Z.shiftr (Z.shiftr v (a - 1) + 1) 1.
Proof.
  intros Ha. rewrite !Z.shiftr_div_pow2 by lia.
  replace a with (Z.succ (a - 1)) at 1 2 by lia.
  rewrite Z.pow_succ_r by lia.
  set (b := (2 ^ (a - 1))%Z).
  assert (Hb : (0 < b)%Z) by (apply Z.pow_pos_nonneg; lia).
  change (2 ^ 1)%Z with 2%Z.
  replace (2 * v + 2 * b)%Z with (2 * (v + 1 * b))%Z by lia.
  rewrite Z.div_mul_cancel_l by lia.
  replace (2 * b)%Z with (b * 2)%Z by lia.
  rewrite <- Z.div_div by lia.
  rewrite Z.div_add by lia. reflexivity.
Qed.

Lemma Math_round_shift_eq (x : float) : Math_round_shift x = Math_round x.
Proof.
  unfold Math_round_shift, Math_round.
  destruct (Prim2SF x) as [| | |s m e]; try reflexivity.
  destruct (0 <=? e)%Z eqn:E; [reflexivity|].
  apply Z.leb_gt in E. cbv zeta.
  rewrite (@round_by_shifts (if s then Z.neg m else Z.pos m) (- e)) by lia.
  reflexivity.
Qed.



Lemma agree_from_spec (fuel : nat) :
  forall k n r : Z,
    (2 * (k * 220462) + 1000000 = n * 2000000 + r)%Z ->
    (0 <= r < 2000000)%Z ->
    agree_from fuel k n r = true ->
    forall j : Z, (k <= j < k + Z.of_nat fuel)%Z ->
      convertWeight "kg" (double (j # 100)) (Some "lbs") =
      double (tenths j # 10).
Proof.
  induction fuel as [|fuel IH]; intros k n r Hinv Hr H j Hj; [lia|].
  cbn [agree_from] in H. apply andb_true_iff in H. destruct H as [Hk Hrest].
  destruct (Z.eq_dec j k) as [->|Hne].
  - apply FloatAxioms.Leibniz.eqb_spec in Hk.
    rewrite Math_round_shift_eq in Hk.
    replace (tenths k) with n; [exact Hk|].
    unfold tenths. apply Z.div_unique with r; lia.
  - cbv zeta in Hrest.
    destruct (r + 440924 <? 2000000)%Z eqn:E.
    + apply Z.ltb_lt in E. apply (IH (k + 1)%Z n (r + 440924)%Z); try lia.
      exact Hrest.
    + apply Z.ltb_ge in E.
      apply (IH (k + 1)%Z (n + 1)%Z (r + 440924 - 2000000)%Z); try lia.
      exact Hrest.
Qed.

(** Every stored weight below 2500 kg, one after the other. *)
Lemma agree_below_2500 : agree_from (Z.to_nat 250000) 0 0 1000000 = true.
Proof. vm_compute. reflexivity. Qed.





(** C9 (as stated): a stored string other than kg and lbs is not replaced
    by kg; the preference starts outside {kg, lbs}. *)
Lemma initialUnit_keeps_unknown_string :
  initialUnit true (Some "pounds") = "pounds" /\
  initialUnit true (Some "pounds") <> Spec.promised_unit (Some "pounds") /\
  initialUnit true (Some "pounds") <> "kg" /\
  initialUnit true (Some "pounds") <> "lbs".
Proof. repeat split; try reflexivity; discriminate. Qed.

(** C9 (amended).  The preference starts as promised (lbs for a stored
    lbs, kg otherwise) whenever the stored value is absent, empty, kg or
    lbs; any other stored string is taken over as it is.  So the start
    value lies in {kg, lbs} exactly for those four stored values; without
    a window it is kg. *)
Theorem initialUnit_spec (saved : option string) :
  (initialUnit true saved = Spec.promised_unit saved \/
   exists s, saved = Some s /\ s <> EmptyString /\ s <> "kg" /\ s <> "lbs" /\
             initialUnit true saved = s) /\
  (initialUnit true saved = "lbs" <-> saved = Some "lbs") /\
  (initialUnit true saved = "kg" \/ initialUnit true saved = "lbs" <->
   saved = None \/ saved = Some EmptyString \/
   saved = Some "kg" \/ saved = Some "lbs") /\
  initialUnit false saved = "kg".
Proof.
  assert (Hcase : forall s : string,
             s = EmptyString \/ s = "kg" \/ s = "lbs" \/
             (s <> EmptyString /\ s <> "kg" /\ s <> "lbs")).
  { intro s.
    destruct (string_dec s EmptyString); [tauto|].
    destruct (string_dec s "kg"); [tauto|].
    destruct (string_dec s "lbs"); tauto. }
  assert (Hne : forall s : string, s <> EmptyString ->
             initialUnit true (Some s) = s).
  { intros [|c s] H; [congruence | reflexivity]. }
  destruct saved as [s|].
  - destruct (Hcase s) as [-> | [-> | [-> | (H0 & H1 & H2)]]].
    + repeat split; try (left; reflexivity); try discriminate; cbn; intuition congruence.
    + repeat split; try (left; reflexivity); try discriminate; cbn; intuition congruence.
    + repeat split; try (left; reflexivity); try discriminate; cbn; intuition congruence.
    + rewrite (Hne s H0). repeat split.
      * right. exists s. auto.
      * intros ->. congruence.
      * intros [=->]. congruence.
      * intros [-> | ->]; congruence.
      * intros [H | [H | [H | H]]]; try discriminate; injection H as ->; congruence.
  - repeat split; try (left; reflexivity); try discriminate; cbn; intuition congruence.
Qed.

End SettingsFacts.

(** ** The streak of the dashboard *)
Section StreakFacts.
Import Js DateFns Dashboard Samples.
Local Open Scope string_scope.
Local Open Scope list_scope.
Local Open Scope Z_scope.

Lemma last_cons_default (A : Type) (l : list A) (x d : A) :
  last (x :: l) d = last l x.
Proof.
  revert x d. induction l as [|y l IH]; intros x d; [reflexivity|].
  change (last (x :: y :: l) d) with (last (y :: l) d).
  rewrite (IH y d). symmetry. apply IH.
Qed.

(** The loop counts the longest chained prefix and stops at the first
    workout more than one full day before the check date. *)
Lemma streak_loop_walk (ws : list Workout) :
  forall checkDate n,
  exists counted rest,
    ws = counted ++ rest /\
    streak_loop checkDate n ws = n + Z.of_nat (length counted) /\
    Spec.chained checkDate counted /\
    match rest with
    | [] => True
    | w :: _ =>
        1 < differenceInDays (Spec.check_after checkDate counted) (completed_at w)
    end.
Proof.
  induction ws as [|w ws IH]; intros checkDate n.
  - exists [], []. cbn. repeat split; lia.
  - cbn [streak_loop].
    destruct (differenceInDays checkDate (completed_at w) <=? 1) eqn:E.
    + apply Z.leb_le in E.
      destruct (IH (completed_at w) (n + 1)) as (counted & rest & -> & Hn & Hc & Hr).
      exists (w :: counted), rest. repeat split; auto.
      * rewrite Hn. cbn [length]. lia.
      * unfold Spec.check_after in *. cbn [map].
        rewrite last_cons_default. exact Hr.
    + apply Z.leb_gt in E.
      exists [], (w :: ws). cbn. repeat split; lia.
Qed.




(** C3.  Two workouts on one day count twice: at 20:00 on day 100, with
    workouts at 18:00 and 09:00 of that day, the streak is 2 although a
    single calendar day carries a workout (the day count is 1).  And a day
    without a workout does not end the count when the workouts around it
    are less than 48 hours apart: with workouts on days 100, 99 (00:10)
    and 97 (23:50) the streak is 3 where two consecutive days carry one. *)
Theorem currentStreak_counts_workouts_not_days :
  let h := 3600000 in
  let m := 60000 in
  let today := 100 * MS_PER_DAY + 20 * h in
  let same_day := [at_time (100 * MS_PER_DAY + 18 * h);
                   at_time (100 * MS_PER_DAY + 9 * h)] in
  let gap := [at_time (100 * MS_PER_DAY + 10 * h);
              at_time (99 * MS_PER_DAY + 10 * m);
              at_time (97 * MS_PER_DAY + 23 * h + 50 * m)] in
  (currentStreak today (Some same_day) = 2 /\
   length (Spec.workout_days same_day) = 1%nat /\
   Spec.streak_days today same_day = 1) /\
  (currentStreak today (Some gap) = 3 /\
   Spec.workout_days gap = [100; 99; 97] /\
   Spec.streak_days today gap = 2).
Proof. vm_compute. repeat split. Qed.

End StreakFacts.

(** ** The weekly volume series *)
Section WeeklyVolumeFacts.
Import PrimFloat.
Import Js DateFns Progress Samples.
Local Open Scope string_scope.
Local Open Scope list_scope.
Local Open Scope Z_scope.

Lemma week_loop_length now ws (i : nat) acc :
  (i <= 7)%nat ->
  length (week_loop now ws i acc) = (length acc + Nat.min (S i) 7)%nat.
Proof.
  revert acc. induction i as [|i IH]; intros acc Hi.
  - cbn. rewrite length_app. reflexivity.
  - cbn [week_loop]. rewrite IH by lia. unfold week_body.
    destruct (Z.of_nat (S i) <? 7) eqn:E.
    + apply Z.ltb_lt in E. rewrite length_app. cbn [length]. lia.
    + apply Z.ltb_ge in E. lia.
Qed.

(** The series always has seven entries. *)
Lemma weeklyVolume_length now workouts :
  length (weeklyVolume now workouts) = 7%nat.
Proof. unfold weeklyVolume. rewrite week_loop_length by lia. reflexivity. Qed.

(** The loop written out: the buckets reported start 42, 35, ..., 7 and 0
    days before now, oldest first, and each holds the rounded volume of the
    workouts completed in the seven days from its start; the bucket left
    out is the one that starts 49 days before now. *)
Lemma weeklyVolume_buckets now workouts :
  weeklyVolume now workouts =
  map (fun i =>
         {| wv_date := subDays now (i * 7);
            wv_volume :=
              Math_round
                (fold_left
                   (add_workout (subDays now (i * 7)) (subDays now ((i - 1) * 7)))
                   (arr workouts) 0%float) |})
      [6; 5; 4; 3; 2; 1; 0].
Proof. reflexivity. Qed.

Ltac decide_bounds :=
  repeat match goal with
    | |- context [(?a <=? ?b)] =>
        first [ replace (a <=? b) with true by (symmetry; apply Z.leb_le; lia)
              | replace (a <=? b) with false by (symmetry; apply Z.leb_gt; lia) ]
    | |- context [(?a <? ?b)] =>
        first [ replace (a <? b) with true by (symmetry; apply Z.ltb_lt; lia)
              | replace (a <? b) with false by (symmetry; apply Z.ltb_ge; lia) ]
    end.

(** C2.  Whatever the time [now], a workout finished one day ago (one set
    of 50 x 10) is reported, with its 500, in the sixth of the seven
    buckets, and a workout stamped [now] in the seventh, which starts at
    [now]: no week near the present is left out.  The bucket left out is
    the oldest: a workout finished 45 days ago appears nowhere. *)
Theorem weeklyVolume_reports_current_week (now : Z) :
  map wv_volume
    (weeklyVolume now (Some [workout_at (subDays now 1) [one_set 50 10]]))
    = [0; 0; 0; 0; 0; 500; 0]%float /\
  map wv_volume
    (weeklyVolume now (Some [workout_at now [one_set 50 10]]))
    = [0; 0; 0; 0; 0; 0; 500]%float /\
  map wv_volume
    (weeklyVolume now (Some [workout_at (subDays now 45) [one_set 50 10]]))
    = [0; 0; 0; 0; 0; 0; 0]%float /\
  map wv_date (weeklyVolume now None) =
    [subDays now 42; subDays now 35; subDays now 28; subDays now 21;
     subDays now 14; subDays now 7; now].
Proof.
  rewrite !weeklyVolume_buckets.
  cbn [map arr fold_left wv_volume wv_date].
  unfold add_workout, workout_at, subDays, MS_PER_DAY. cbn [completed_at].
  repeat split.
  - decide_bounds. reflexivity.
  - decide_bounds. reflexivity.
  - decide_bounds. reflexivity.
  - repeat (f_equal; try lia).
Qed.

End WeeklyVolumeFacts.

(** ** The set editor of the active workout *)
Section EditorFacts.
Import Js ActiveWorkout Samples.
Local Open Scope string_scope.
Local Open Scope list_scope.
Local Open Scope Z_scope.

(** A collection numbered 1..n stays so when the number n+1 is appended. *)
Lemma unique_dense_snoc (numbers : list Z) :
  Spec.unique_dense numbers ->
  Spec.unique_dense (numbers ++ [Z.of_nat (length numbers) + 1]).
Proof.
  intros [Hnd Hall]. split.
  - apply NoDup_app; [exact Hnd | repeat constructor; intros [] | ].
    intros k Hk [<- | []].
    rewrite Forall_forall in Hall. specialize (Hall _ Hk). lia.
  - rewrite length_app. cbn [length].
    apply Forall_app. split.
    + eapply Forall_impl; [| exact Hall]. cbn. intros k Hk. lia.
    + repeat constructor; lia.
Qed.

Lemma card_unique exercises weId we we' :
  NoDup (map we_id exercises) ->
  card exercises weId = Some we ->
  In we' exercises -> we_id we' = weId -> we' = we.
Proof.
  unfold card. induction exercises as [|e es IH]; intros Hnd Hf Hin Hid; [easy|].
  cbn in Hnd. inversion Hnd as [|? ? Hnotin Hnd']; subst.
  cbn [find] in Hf. destruct (String.eqb (we_id e) (we_id we')) eqn:E.
  - injection Hf as <-. apply String.eqb_eq in E.
    destruct Hin as [-> | Hin]; [reflexivity|].
    exfalso. apply Hnotin. rewrite E. apply in_map. exact Hin.
  - destruct Hin as [-> | Hin].
    + rewrite String.eqb_refl in E. discriminate.
    + apply IH; auto.
Qed.

(** Adding a set keeps every card's numbers unique and dense. *)
Lemma addSet_keeps_unique_dense exercises weId inserted :
  NoDup (map we_id exercises) ->
  Forall (fun we => Spec.unique_dense (Spec.set_numbers we)) exercises ->
  Forall (fun we => Spec.unique_dense (Spec.set_numbers we))
    (click exercises (ClickAddSet weId inserted)).
Proof.
  intros Hnd Hall. cbn [click].
  destruct (card exercises weId) as [we|] eqn:Hc; [|exact Hall].
  unfold addSet. destruct inserted as [newId|]; [|exact Hall].
  assert (Hid : we_id we = weId).
  { unfold card in Hc. apply find_some in Hc. apply String.eqb_eq, Hc. }
  rewrite Forall_forall in *. intros x Hx.
  apply in_map_iff in Hx. destruct Hx as (we' & <- & Hin).
  destruct (String.eqb (we_id we') (we_id we)) eqn:E.
  - apply String.eqb_eq in E.
    assert (we' = we) by (eapply card_unique; eauto; congruence). subst we'.
    unfold Spec.set_numbers. cbn [sets]. rewrite map_app. cbn [map inserted_set set_number].
    rewrite <- (length_map set_number (sets we)).
    apply unique_dense_snoc. apply Hall. exact Hin.
  - apply Hall. exact Hin.
Qed.

(** C5.  A card with the sets 1, 2, 3 satisfies the invariant; deleting
    set 2 leaves the numbers 1, 3, which are not dense, and adding a set
    then gives 1, 3, 3, which are not unique. *)
Theorem deleteSet_breaks_set_numbers :
  Spec.unique_dense (Spec.set_numbers bench) /\
  map Spec.set_numbers (clicks [bench] [ClickDeleteSet "we1" "s2"])
    = [[1; 3]] /\
  ~ Spec.unique_dense [1; 3] /\
  map Spec.set_numbers
    (clicks [bench] [ClickDeleteSet "we1" "s2"; ClickAddSet "we1" (Some "s4")])
    = [[1; 3; 3]] /\
  ~ Spec.unique_dense [1; 3; 3].
Proof.
  split; [|split; [reflexivity | split; [|split; [reflexivity|]]]].
  - split.
    + repeat constructor; cbn; intuition discriminate.
    + repeat constructor; cbn; lia.
  - intros [_ H]. inversion H as [|? ? _ H']; subst.
    inversion H' as [|? ? Hb _]; subst. cbn in Hb. lia.
  - intros [H _]. inversion H as [|? ? _ H']; subst.
    inversion H' as [|? ? Hn _]; subst. apply Hn. left. reflexivity.
Qed.

End EditorFacts.

(** ** The session count of the exercise details *)
Section SessionFacts.
Import Js ExerciseDetails Samples.
Local Open Scope string_scope.
Local Open Scope list_scope.
Local Open Scope Z_scope.

Lemma nodup_length_le (A : Type) (dec : forall x y : A, {x = y} + {x <> y})
    (l : list A) :
  (length (nodup dec l) <= length l)%nat.
Proof.
  induction l as [|x l IH]; [cbn; lia|].
  cbn [nodup]. destruct (in_dec dec x l); cbn [length]; lia.
Qed.

Lemma nodup_length_eq (A : Type) (dec : forall x y : A, {x = y} + {x <> y})
    (l : list A) :
  length (nodup dec l) = length l <-> NoDup l.
Proof.
  split.
  - induction l as [|x l IH]; intros H; [constructor|].
    cbn [nodup] in H. destruct (in_dec dec x l) as [Hin|Hin].
    + pose proof (nodup_length_le dec l). cbn [length] in H. lia.
    + cbn [length] in H. constructor; [exact Hin | apply IH; lia].
  - intros H. rewrite nodup_fixed_point by exact H. reflexivity.
Qed.

(** C7 (as stated): one completed workout that holds the exercise in two
    entries counts as two sessions, not one. *)
Lemma timesPerformed_counts_entries :
  let rows := Some [row "we1" "w1" []; row "we2" "w1" []] in
  st_timesPerformed (fst (fetchHistory "u" rows)) = 2 /\
  Spec.qualifying_workouts "u" rows = ["w1"%string].
Proof. split; reflexivity. Qed.

(** C7 (amended).  The session count is the number of qualifying entries
    (entries of the exercise in completed workouts of the user).  It is at
    least the number of distinct qualifying workouts, and equal to it
    exactly when no qualifying workout holds the exercise in two entries. *)
Theorem timesPerformed_spec (user : string)
    (rows : option (list WorkoutExerciseRow)) :
  let sessions := st_timesPerformed (fst (fetchHistory user rows)) in
  sessions = Z.of_nat (length (filter (qualifies user) (arr rows))) /\
  Z.of_nat (length (Spec.qualifying_workouts user rows)) <= sessions /\
  (sessions = Z.of_nat (length (Spec.qualifying_workouts user rows)) <->
   NoDup (map Spec.row_workout (userWorkouts user rows))).
Proof.
  cbn zeta. unfold fetchHistory, stats, Spec.qualifying_workouts. cbn [fst st_timesPerformed].
  split; [reflexivity|]. split.
  - apply inj_le.
    rewrite <- (length_map Spec.row_workout (userWorkouts user rows)).
    apply nodup_length_le.
  - rewrite <- nodup_length_eq with (dec := string_dec).
    rewrite length_map. split; intros H; [apply Nat2Z.inj|]; congruence.
Qed.

End SessionFacts.

(** ** Personal records *)
Section PersonalRecordFacts.
Import Js DateFns Progress Spec Views Samples.
Local Open Scope string_scope.
Local Open Scope list_scope.
Local Open Scope Q_scope.

Lemma gtb_true (a b : Q) : gtb a b = true <-> b < a.
Proof.
  unfold gtb. rewrite Qlt_alt, <- (Qcompare_antisym a b).
  destruct (a ?= b); cbn; split; congruence.
Qed.

Lemma gtb_false (a b : Q) : gtb a b = false <-> a <= b.
Proof.
  unfold gtb. rewrite Qle_alt. destruct (a ?= b); split; congruence.
Qed.

Lemma fold_left_map_arg (A B C : Type) (f : C -> B -> C) (g : A -> B)
    (l : list A) (c : C) :
  fold_left f (map g l) c = fold_left (fun c x => f c (g x)) l c.
Proof. revert c. induction l as [|x l IH]; intros c; cbn; auto. Qed.

Lemma pr_exercise_entry_logged (date : Z) (m : PrMap) (we : WorkoutExercise) :
  pr_exercise_entry date m we = fold_left pr_put (logged_entry date we) m.
Proof.
  unfold pr_exercise_entry, logged_entry.
  destruct (exerciseName we) as [n|]; [|reflexivity].
  rewrite fold_left_map_arg. reflexivity.
Qed.

Lemma pr_workout_logged (m : PrMap) (w : Workout) :
  pr_workout m w = fold_left pr_put (logged_workout w) m.
Proof.
  unfold pr_workout, logged_workout. rewrite fold_left_flat_map.
  generalize (arr (workout_exercises w)). intros l. revert m.
  induction l as [|we l IH]; intros m; cbn [fold_left]; [reflexivity|].
  rewrite pr_exercise_entry_logged. apply IH.
Qed.

(** The map is the fold of [pr_put] over the logged sets. *)
Lemma prMap_of_logged (workouts : option (list Workout)) :
  prMap_of workouts = fold_left pr_put (logged_sets workouts) [].
Proof.
  unfold prMap_of, logged_sets. rewrite fold_left_flat_map.
  generalize (@nil (string * Best)). generalize (arr workouts). intros l.
  induction l as [|w l IH]; intros m; cbn [fold_left]; [reflexivity|].
  rewrite pr_workout_logged. apply IH.
Qed.

Lemma get_pr_put (name : string) (m : PrMap) (l : Logged) :
  map_get String.eqb name (pr_put m l) =
  if String.eqb (l_name l) name
  then best_step (map_get String.eqb name m) l
  else map_get String.eqb name m.
Proof.
  unfold pr_put. destruct (String.eqb (l_name l) name) eqn:E.
  - apply String.eqb_eq in E. subst name.
    destruct (map_get String.eqb (l_name l) m) as [e|] eqn:G; cbn [best_step].
    + destruct (gtb (l_weight l) (best_weight e)).
      * rewrite (map_get_set _ String.eqb_eq), String.eqb_refl. reflexivity.
      * exact G.
    + rewrite (map_get_set _ String.eqb_eq), String.eqb_refl. reflexivity.
  - match goal with |- context [if ?b then _ else _] => destruct b end;
      [|reflexivity].
    rewrite (map_get_set _ String.eqb_eq), String.eqb_sym, E. reflexivity.
Qed.

Lemma get_fold_pr_put (name : string) (ls : list Logged) (m : PrMap) :
  map_get String.eqb name (fold_left pr_put ls m) =
  fold_left best_step (filter (fun l => String.eqb (l_name l) name) ls)
    (map_get String.eqb name m).
Proof.
  revert m. induction ls as [|l ls IH]; intros m; cbn [fold_left filter].
  - reflexivity.
  - rewrite IH, get_pr_put. destruct (String.eqb (l_name l) name); reflexivity.
Qed.

Lemma pr_put_NoDup (ls : list Logged) (m : PrMap) :
  NoDup (map fst m) -> NoDup (map fst (fold_left pr_put ls m)).
Proof.
  revert m. induction ls as [|l ls IH]; intros m H; cbn [fold_left]; [exact H|].
  apply IH. unfold pr_put.
  match goal with |- context [if ?b then _ else _] => destruct b end;
    [apply (map_set_NoDup _ String.eqb_eq), H | exact H].
Qed.

(** From a current best [cur], the fold ends at the first heaviest set. *)
Lemma best_fold_from (ls : list Logged) :
  forall pre cur post,
    (forall y, In y pre -> l_weight y < l_weight cur) ->
    (forall y, In y post -> l_weight y <= l_weight cur) ->
    exists x,
      fold_left best_step ls (Some (best_of cur)) = Some (best_of x) /\
      first_max (pre ++ cur :: post ++ ls) x.
Proof.
  induction ls as [|y ls IH]; intros pre cur post Hpre Hpost.
  - exists cur. split; [reflexivity|].
    exists pre, post. rewrite app_nil_r. auto.
  - cbn [fold_left best_step best_of best_weight].
    destruct (gtb (l_weight y) (l_weight cur)) eqn:E.
    + apply gtb_true in E.
      destruct (IH (pre ++ cur :: post) y []) as (x & Hx & Hm).
      * intros z Hz. apply in_app_or in Hz. destruct Hz as [Hz | [<- | Hz]].
        -- eapply Qlt_trans; [apply Hpre, Hz | exact E].
        -- exact E.
        -- eapply Qle_lt_trans; [apply Hpost, Hz | exact E].
      * intros z [].
      * exists x. split; [exact Hx|].
        rewrite <- app_assoc in Hm. exact Hm.
    + apply gtb_false in E.
      destruct (IH pre cur (post ++ [y])) as (x & Hx & Hm).
      * exact Hpre.
      * intros z Hz. apply in_app_or in Hz. destruct Hz as [Hz | [<- | []]]; auto.
      * exists x. split; [exact Hx|].
        rewrite <- app_assoc in Hm. exact Hm.
Qed.

Lemma best_fold (ls : list Logged) :
  ls <> [] ->
  exists x, fold_left best_step ls None = Some (best_of x) /\ first_max ls x.
Proof.
  destruct ls as [|l ls]; [congruence | intros _].
  cbn [fold_left best_step].
  destruct (best_fold_from ls [] l []) as (x & Hx & Hm);
    [intros y [] | intros y [] | ].
  exists x. auto.
Qed.

Lemma pr_entries_In (r : PersonalRecord) (m : PrMap) :
  In r (pr_entries m) <->
  exists v, In (pr_exercise r, v) m /\
            pr_weight r = best_weight v /\ pr_date r = best_date v.
Proof.
  unfold pr_entries, map_entries. rewrite in_map_iff. split.
  - intros ([k v] & <- & Hin). exists v. auto.
  - intros (v & Hin & Hw & Hd). exists (pr_exercise r, v).
    split; [|exact Hin]. destruct r; cbn in *. congruence.
Qed.

(** The entry of a name that has logged sets is the record of its first
    heaviest set, and it is the only entry of that name. *)
Lemma pr_entries_first_max (workouts : option (list Workout)) (name : string) :
  logged_for name workouts <> [] ->
  exists x,
    first_max (logged_for name workouts) x /\
    In (record_of x) (pr_entries (prMap_of workouts)) /\
    forall r, In r (pr_entries (prMap_of workouts)) ->
              pr_exercise r = name -> r = record_of x.
Proof.
  intros Hne. destruct (best_fold Hne) as (x & Hx & Hm).
  assert (Hget : map_get String.eqb name (prMap_of workouts) = Some (best_of x)).
  { rewrite prMap_of_logged, get_fold_pr_put. exact Hx. }
  assert (Hname : l_name x = name).
  { destruct Hm as (pre & post & Heq & _).
    assert (Hin : In x (logged_for name workouts))
      by (rewrite Heq; apply in_elt).
    unfold logged_for in Hin. apply filter_In in Hin.
    apply String.eqb_eq, Hin. }
  exists x. split; [exact Hm|]. split.
  - apply pr_entries_In. exists (best_of x). cbn. rewrite Hname.
    split; [|auto]. apply (map_get_In _ String.eqb_eq). exact Hget.
  - intros r Hr Hn. apply pr_entries_In in Hr. destruct Hr as (v & Hin & Hw & Hd).
    rewrite Hn in Hin. apply (In_map_get _ String.eqb_eq) in Hin.
    + rewrite Hget in Hin. injection Hin as <-.
      destruct r; unfold record_of; cbn in *. congruence.
    + rewrite prMap_of_logged. apply pr_put_NoDup. constructor.
Qed.

(** Only names with a logged set have an entry. *)
Lemma pr_entries_logged (workouts : option (list Workout)) (r : PersonalRecord) :
  In r (pr_entries (prMap_of workouts)) ->
  logged_for (pr_exercise r) workouts <> [].
Proof.
  intros Hr Hnil. apply pr_entries_In in Hr. destruct Hr as (v & Hin & _).
  apply (In_map_get _ String.eqb_eq) in Hin.
  - rewrite prMap_of_logged, get_fold_pr_put in Hin.
    unfold logged_for in Hnil. rewrite Hnil in Hin. discriminate.
  - rewrite prMap_of_logged. apply pr_put_NoDup. constructor.
Qed.

Lemma by_weight_desc_before (a b : PersonalRecord) :
  before by_weight_desc a b <-> heavier_first a b.
Proof. unfold before, by_weight_desc, heavier_first. split; intros H; lra. Qed.

Lemma personalRecords_sorted (workouts : option (list Workout)) :
  StronglySorted heavier_first
    (Array_sort by_weight_desc (pr_entries (prMap_of workouts))).
Proof.
  eapply StronglySorted_ind with (R := before by_weight_desc)
    (P := StronglySorted heavier_first).
  - constructor.
  - intros a l _ IH Hall. constructor; [exact IH|].
    eapply Forall_impl; [|exact Hall]. intros b. apply by_weight_desc_before.
  - apply Array_sort_sorted.
    + intros x y. unfold before, by_weight_desc.
      destruct (Qlt_le_dec (pr_weight x) (pr_weight y)); [right | left]; lra.
    + intros x y z. unfold before, by_weight_desc. lra.
Qed.

Lemma top_in_all (workouts : option (list Workout)) (r : PersonalRecord) :
  In r (personalRecords workouts) -> In r (pr_entries (prMap_of workouts)).
Proof.
  unfold personalRecords, slice_first. intros H.
  apply (Permutation_in _ (Array_sort_perm by_weight_desc _)).
  rewrite <- (firstn_skipn 10). apply in_or_app. left. exact H.
Qed.

Lemma top_length (workouts : option (list Workout)) :
  length (personalRecords workouts) =
  Nat.min 10 (length (pr_entries (prMap_of workouts))).
Proof.
  unfold personalRecords, slice_first. rewrite length_firstn.
  rewrite (Permutation_length (Array_sort_perm by_weight_desc _)). reflexivity.
Qed.

(** An entry that missed the list is no heavier than any entry in it. *)
Lemma top_heaviest (workouts : option (list Workout)) (r o : PersonalRecord) :
  In r (pr_entries (prMap_of workouts)) ->
  ~ In r (personalRecords workouts) ->
  In o (personalRecords workouts) ->
  pr_weight r <= pr_weight o.
Proof.
  unfold personalRecords, slice_first. intros Hr Hnot Ho.
  apply (Permutation_in _ (Permutation_sym (Array_sort_perm by_weight_desc _))) in Hr.
  rewrite <- (firstn_skipn 10) in Hr. apply in_app_or in Hr.
  destruct Hr as [Hr | Hr]; [tauto|].
  exact (StronglySorted_split 10 (personalRecords_sorted workouts) _ _ Ho Hr).
Qed.

(** One entry for a name. *)
Lemma pr_entries_names (workouts : option (list Workout)) :
  NoDup (map pr_exercise (pr_entries (prMap_of workouts))).
Proof.
  unfold pr_entries, map_entries. rewrite map_map.
  erewrite map_ext.
  - rewrite prMap_of_logged. apply pr_put_NoDup. constructor.
  - intros [k v]. reflexivity.
Qed.

(** The result is the first ten of the entries put in descending order of
    weight. *)
Lemma ranking (workouts : option (list Workout)) :
  exists ranked,
    Permutation ranked (pr_entries (prMap_of workouts)) /\
    StronglySorted heavier_first ranked /\
    personalRecords workouts = firstn 10 ranked.
Proof.
  exists (Array_sort by_weight_desc (pr_entries (prMap_of workouts))).
  split; [apply Array_sort_perm|].
  split; [apply personalRecords_sorted | reflexivity].
Qed.

Lemma count_perm (keep : PersonalRecord -> bool) (rs rs' : list PersonalRecord) :
  Permutation rs rs' -> length (filter keep rs) = length (filter keep rs').
Proof.
  induction 1 as [|x l l' _ IH|x y l|l l' l'' _ IH1 _ IH2]; cbn [filter].
  - reflexivity.
  - destruct (keep x); cbn [length]; congruence.
  - destruct (keep x), (keep y); reflexivity.
  - congruence.
Qed.

Lemma count_le (keep : PersonalRecord -> bool) (rs : list PersonalRecord) :
  (length (filter keep rs) <= length rs)%nat.
Proof.
  induction rs as [|x rs IH]; cbn [filter length]; [lia|].
  destruct (keep x); cbn [length]; lia.
Qed.

Lemma none_heavier (r : PersonalRecord) (rest : list PersonalRecord) :
  Forall (heavier_first r) rest ->
  filter (fun o => gtb (pr_weight o) (pr_weight r)) rest = [].
Proof.
  induction 1 as [|o rest Ho _ IH]; [reflexivity|]. cbn [filter].
  replace (gtb (pr_weight o) (pr_weight r)) with false
    by (symmetry; apply gtb_false, Ho).
  exact IH.
Qed.

(** An entry in the result has fewer than ten entries heavier than itself. *)
Lemma top_few_heavier (workouts : option (list Workout)) (r : PersonalRecord) :
  In r (personalRecords workouts) ->
  (length (filter (fun o => gtb (pr_weight o) (pr_weight r))
             (pr_entries (prMap_of workouts))) < 10)%nat.
Proof.
  intros Hr. unfold personalRecords, slice_first in Hr.
  rewrite <- (count_perm _ (Array_sort_perm by_weight_desc
                              (pr_entries (prMap_of workouts)))).
  pose proof (personalRecords_sorted workouts) as Hs.
  set (ranked := Array_sort by_weight_desc (pr_entries (prMap_of workouts))) in *.
  destruct (in_split _ _ Hr) as (pre & post & Hsplit).
  assert (Hlen : (length pre < 10)%nat).
  { apply (f_equal (@length _)) in Hsplit.
    rewrite length_firstn, length_app in Hsplit. cbn [length] in Hsplit. lia. }
  assert (Hranked : ranked = pre ++ r :: (post ++ skipn 10 ranked)).
  { rewrite <- (firstn_skipn 10 ranked) at 1.
    rewrite Hsplit, <- app_assoc. reflexivity. }
  rewrite Hranked in Hs. apply StronglySorted_app_inv in Hs.
  destruct Hs as (_ & Hs & _). inversion Hs as [|? ? _ Hall]; subst.
  rewrite Hranked, filter_app, length_app. cbn [filter].
  replace (gtb (pr_weight r) (pr_weight r)) with false
    by (symmetry; apply gtb_false, Qle_refl).
  replace (filter (fun o => gtb (pr_weight o) (pr_weight r))
             (post ++ skipn 10 ranked)) with (@nil PersonalRecord).
  - pose proof (count_le (fun o => gtb (pr_weight o) (pr_weight r)) pre).
    cbn [length]. lia.
  - symmetry. apply none_heavier, Hall.
Qed.

(** C4.  Every exercise name with a logged set has exactly one entry: the
    weight and the workout date of its heaviest set, the first one met in the
    traversal among sets of that weight (null weights read as 0); no other
    name has an entry, and no name has two.  The result is the first ten
    of these entries put in descending order of weight: it is sorted, it
    has at most ten entries, and what it leaves out is no heavier than what
    it keeps.  Bench Press at
    100 and at 120 on two dates gives 120 with the date of the 120 set, in
    either order of traversal; of two sets of 100 the first met is kept. *)
Theorem personalRecords_spec (workouts : option (list Workout)) :
  let all := pr_entries (prMap_of workouts) in
  let top := personalRecords workouts in
  (forall name, logged_for name workouts <> [] ->
     exists x, first_max (logged_for name workouts) x /\
               In (record_of x) all /\
               forall r, In r all -> pr_exercise r = name -> r = record_of x) /\
  (forall r, In r all -> logged_for (pr_exercise r) workouts <> []) /\
  (forall r, In r top -> In r all) /\
  StronglySorted heavier_first top /\
  length top = Nat.min 10 (length all) /\
  (length top <= 10)%nat /\
  (forall r o, In r all -> ~ In r top -> In o top -> pr_weight r <= pr_weight o) /\
  NoDup (map pr_exercise all) /\
  (exists ranked,
     Permutation ranked all /\ StronglySorted heavier_first ranked /\
     top = firstn 10 ranked) /\
  (forall d1 d2,
     personalRecords (Some [workout_at d1 [one_set 100 10];
                            workout_at d2 [one_set 120 10]])
     = [{| pr_exercise := "Bench Press"; pr_weight := 120; pr_date := d2 |}] /\
     personalRecords (Some [workout_at d2 [one_set 120 10];
                            workout_at d1 [one_set 100 10]])
     = [{| pr_exercise := "Bench Press"; pr_weight := 120; pr_date := d2 |}] /\
     personalRecords (Some [workout_at d1 [one_set 100 10];
                            workout_at d2 [one_set 100 10]])
     = [{| pr_exercise := "Bench Press"; pr_weight := 100; pr_date := d1 |}]).
Proof.
  cbn zeta.
  split; [|split; [|split; [|split; [|split; [|split; [|split; [|split;
    [|split]]]]]]]].
  - apply pr_entries_first_max.
  - apply pr_entries_logged.
  - apply top_in_all.
  - apply StronglySorted_firstn, personalRecords_sorted.
  - apply top_length.
  - rewrite top_length. apply Nat.le_min_l.
  - apply top_heaviest.
  - apply pr_entries_names.
  - apply ranking.
  - intros d1 d2. repeat split; reflexivity.
Qed.

Lemma filter_flat_map (A B : Type) (f : B -> bool) (g : A -> list B)
    (l : list A) :
  filter f (flat_map g l) = flat_map (fun x => filter f (g x)) l.
Proof.
  induction l as [|x l IH]; cbn [flat_map]; [reflexivity|].
  rewrite filter_app, IH. reflexivity.
Qed.

Lemma flat_map_nil (A B : Type) (g : A -> list B) (l : list A) :
  (forall x, In x l -> g x = []) -> flat_map g l = [].
Proof.
  induction l as [|x l IH]; intros H; cbn [flat_map]; [reflexivity|].
  rewrite (H x) by (left; reflexivity). cbn. apply IH. intros y Hy. apply H. right. exact Hy.
Qed.

(** Where a logged set comes from. *)
Lemma logged_sets_In (workouts : option (list Workout)) (l : Logged) :
  In l (logged_sets workouts) ->
  exists w we s,
    In w (arr workouts) /\ In we (arr (workout_exercises w)) /\
    exerciseName we = Some (l_name l) /\ In s (arr (sets we)) /\
    l_weight l = num_or_0 (set_weight s) /\ l_date l = completed_at w.
Proof.
  unfold logged_sets, logged_workout. intros H.
  apply in_flat_map in H. destruct H as (w & Hw & H).
  apply in_flat_map in H. destruct H as (we & Hwe & H).
  unfold logged_entry in H. destruct (exerciseName we) as [n|] eqn:En; [|destruct H].
  apply in_map_iff in H. destruct H as (s & <- & Hs).
  exists w, we, s. cbn. repeat split; auto.
Qed.

(** C10 (as stated): Curl appears in a completed workout and none of its
    sets has a weight, for it has no set; it gets no entry. *)
Lemma no_set_no_record :
  map exerciseName (arr (workout_exercises curl_no_sets)) = [Some "Curl"] /\
  logged_for "Curl" (Some [curl_no_sets]) = [] /\
  pr_entries (prMap_of (Some [curl_no_sets])) = [] /\
  personalRecords (Some [curl_no_sets]) = [].
Proof. repeat split. Qed.

(** C10 (amended).  An exercise that has a set, and whose sets all have a
    null weight, gets its entry: weight 0, dated at the first workout of
    the traversal that logs a set of it, and the only entry of that name.
    The entry takes part in the ranking, the first ten of the entries in
    descending order of weight: it is in the result when there are at most
    ten entries; when it is in the result, fewer than ten entries are above
    0; and when it is not, the result has ten entries, of weight 0 or
    more. *)
Theorem null_weights_recorded_as_zero (workouts : option (list Workout))
    (name : string) (earlier later : list Workout) (first : Workout) :
  arr workouts = earlier ++ first :: later ->
  (forall w, In w earlier -> logged_in name w = []) ->
  logged_in name first <> [] ->
  (forall w we s,
     In w (arr workouts) -> In we (arr (workout_exercises w)) ->
     exerciseName we = Some name -> In s (arr (sets we)) ->
     set_weight s = None) ->
  let all := pr_entries (prMap_of workouts) in
  let top := personalRecords workouts in
  let r := {| pr_exercise := name; pr_weight := 0;
              pr_date := completed_at first |} in
  In r all /\
  (forall r', In r' all -> pr_exercise r' = name -> r' = r) /\
  (exists ranked,
     Permutation ranked all /\ StronglySorted heavier_first ranked /\
     top = firstn 10 ranked) /\
  ((length all <= 10)%nat -> In r top) /\
  (In r top ->
   (length (filter (fun o => gtb (pr_weight o) 0) all) < 10)%nat) /\
  (~ In r top ->
   length top = 10%nat /\ forall o, In o top -> 0 <= pr_weight o) /\
  (In r top \/
   (length top = 10%nat /\ forall o, In o top -> 0 <= pr_weight o)).
Proof.
  intros Hsplit Hearlier Hfirst Hnull. cbn zeta.
  assert (Hzero : forall l, In l (logged_for name workouts) -> l_weight l = 0).
  { intros l Hl. unfold logged_for in Hl. apply filter_In in Hl.
    destruct Hl as [Hl Hn]. apply String.eqb_eq in Hn.
    destruct (logged_sets_In _ _ Hl) as (w & we & s & Hw & Hwe & He & Hs & Hwt & _).
    rewrite Hwt, (Hnull w we s); auto. congruence. }
  assert (Hfor : logged_for name workouts =
                 logged_in name first ++ flat_map (logged_in name) later).
  { unfold logged_for, logged_sets. rewrite filter_flat_map, Hsplit.
    change (fun x : Workout =>
              filter (fun l => String.eqb (l_name l) name) (logged_workout x))
      with (logged_in name).
    rewrite flat_map_app. cbn [flat_map].
    rewrite (flat_map_nil _ _ Hearlier). reflexivity. }
  destruct (logged_in name first) as [|x0 rest0] eqn:E0; [congruence|].
  assert (Hx0 : l_date x0 = completed_at first /\ l_name x0 = name).
  { assert (Hin : In x0 (logged_in name first)) by (rewrite E0; left; reflexivity).
    unfold logged_in in Hin. apply filter_In in Hin. destruct Hin as [Hin Hn].
    apply String.eqb_eq in Hn. split; [|exact Hn].
    unfold logged_workout in Hin. apply in_flat_map in Hin.
    destruct Hin as (we & _ & Hin). unfold logged_entry in Hin.
    destruct (exerciseName we); [|destruct Hin].
    apply in_map_iff in Hin. destruct Hin as (s0 & <- & _). reflexivity. }
  destruct (@pr_entries_first_max workouts name) as (x & Hm & Hin & Huniq).
  { rewrite Hfor. discriminate. }
  assert (Hx : x = x0).
  { destruct Hm as (pre & post & Heq & Hpre & _).
    destruct pre as [|y pre].
    - rewrite Hfor in Heq. cbn in Heq. congruence.
    - exfalso. specialize (Hpre y (or_introl eq_refl)).
      rewrite (Hzero y), (Hzero x) in Hpre.
      + revert Hpre. apply Qlt_irrefl.
      + rewrite Heq. apply in_elt.
      + rewrite Heq. left. reflexivity. }
  subst x.
  assert (Hr : record_of x0 =
               {| pr_exercise := name; pr_weight := 0;
                  pr_date := completed_at first |}).
  { unfold record_of. destruct Hx0 as [-> ->]. rewrite (Hzero x0); [reflexivity|].
    rewrite Hfor. left. reflexivity. }
  rewrite Hr in *.
  set (r := {| pr_exercise := name; pr_weight := 0;
               pr_date := completed_at first |}) in *.
  assert (Hsmall : (length (pr_entries (prMap_of workouts)) <= 10)%nat ->
                   In r (personalRecords workouts)).
  { intros Hlen. unfold personalRecords, slice_first.
    rewrite firstn_all2.
    - apply (Permutation_in _ (Permutation_sym (Array_sort_perm by_weight_desc _))).
      exact Hin.
    - rewrite (Permutation_length (Array_sort_perm by_weight_desc _)). exact Hlen. }
  assert (Hout : ~ In r (personalRecords workouts) ->
                 length (personalRecords workouts) = 10%nat /\
                 forall o, In o (personalRecords workouts) -> 0 <= pr_weight o).
  { intros Hni.
    destruct (le_lt_dec (length (pr_entries (prMap_of workouts))) 10) as [Hle|Hgt];
      [tauto|].
    split.
    - rewrite top_length. apply Nat.min_l. lia.
    - intros o Ho. change 0 with (pr_weight r). eapply top_heaviest; eauto. }
  split; [exact Hin|]. split; [exact Huniq|]. split; [apply ranking|].
  split; [exact Hsmall|].
  split; [intros Hi; exact (top_few_heavier _ _ Hi)|].
  split; [exact Hout|].
  destruct (in_dec (fun a b : PersonalRecord =>
                      ltac:(decide equality;
                            [apply Z.eq_dec | decide equality;
                             [apply Pos.eq_dec | apply Z.eq_dec] |
                             apply string_dec]) : {a = b} + {a <> b})
              r (personalRecords workouts)) as [Hi|Hni].
  - left. exact Hi.
  - right. apply Hout, Hni.
Qed.

(** C10 where Curl, logged in two workouts with three sets and no weight,
    meets eleven exercises with a weight: it has its entry of weight 0,
    dated at the first of the two workouts, and the eleven keep it out of
    the result. *)
Lemma null_weights_recorded_as_zero_witness :
  In {| pr_exercise := "Curl"; pr_weight := 0; pr_date := 20 |}
     (pr_entries (prMap_of (Some (eleven ++ [curl_first; curl_again])))) /\
  ~ In {| pr_exercise := "Curl"; pr_weight := 0; pr_date := 20 |}
       (personalRecords (Some (eleven ++ [curl_first; curl_again]))).
Proof.
  assert (H1 : forall w, In w eleven -> logged_in "Curl" w = []).
  { intros w Hw. unfold eleven in Hw.
    repeat (destruct Hw as [<- | Hw]; [reflexivity|]). destruct Hw. }
  assert (H2 : logged_in "Curl" curl_first <> []) by (cbn; discriminate).
  assert (H3 : forall w we s,
             In w (arr (Some (eleven ++ [curl_first; curl_again]))) ->
             In we (arr (workout_exercises w)) ->
             exerciseName we = Some "Curl" -> In s (arr (sets we)) ->
             set_weight s = None).
  { intros w we s Hw. cbn [arr] in Hw. unfold eleven in Hw. cbn [app] in Hw.
    repeat (destruct Hw as [<- | Hw];
            [intros [<- | []] He Hs; cbn in He, Hs; try discriminate He;
             repeat (destruct Hs as [<- | Hs]; [reflexivity|]); destruct Hs|]).
    destruct Hw. }
  pose proof (@null_weights_recorded_as_zero
                (Some (eleven ++ [curl_first; curl_again])) "Curl"
                eleven [curl_again] curl_first eq_refl H1 H2 H3) as H.
  cbv zeta in H. destruct H as (Hin & _ & _ & _ & Hfew & _).
  split; [exact Hin|].
  intros Hi. apply Hfew in Hi. vm_compute in Hi. lia.
Defined.

End PersonalRecordFacts.

(** ** The history of one exercise *)
Section HistoryFacts.
Import PrimFloat.
Import Js DateFns ExerciseDetails Spec Views Samples.
Local Open Scope string_scope.
Local Open Scope list_scope.
Local Open Scope Q_scope.

Lemma set_fold_day (ss : list SetRow) (a : SetAcc) :
  s_dayMaxWeight (fold_left set_step ss a) = day_max ss (s_dayMaxWeight a) /\
  s_dayVolume (fold_left set_step ss a) = day_vol ss (s_dayVolume a).
Proof.
  revert a. induction ss as [|s ss IH]; intros a; [split; reflexivity|].
  cbn [fold_left day_max day_vol]. destruct (IH (set_step a s)) as [-> ->].
  split; reflexivity.
Qed.

Lemma entry_step_history (a : Acc) (we : WorkoutExerciseRow) :
  historyMap (entry_step a we) = hist_put (historyMap a) we.
Proof.
  unfold entry_step, hist_put, merge, or_zero, zero_day, row_day.
  cbn [historyMap].
  match goal with
  | |- context [fold_left set_step ?ss ?a0] =>
      destruct (set_fold_day ss a0) as [-> ->]
  end.
  cbn [s_dayMaxWeight s_dayVolume]. reflexivity.
Qed.

Lemma accumulate_history (rows : list WorkoutExerciseRow) (a : Acc) :
  historyMap (fold_left entry_step rows a) =
  fold_left hist_put rows (historyMap a).
Proof.
  revert a. induction rows as [|we rows IH]; intros a; cbn [fold_left].
  - reflexivity.
  - rewrite IH, entry_step_history. reflexivity.
Qed.

Lemma get_hist_put (day : Z) (m : Map Z DayStats) (we : WorkoutExerciseRow) :
  map_get Z.eqb day (hist_put m we) =
  if (row_day we =? day)%Z
  then day_step (map_get Z.eqb day m) we
  else map_get Z.eqb day m.
Proof.
  unfold hist_put. rewrite (map_get_set _ Z.eqb_eq), Z.eqb_sym.
  destruct (row_day we =? day)%Z eqn:E; [|reflexivity].
  apply Z.eqb_eq in E. subst day. reflexivity.
Qed.

Lemma get_fold_hist_put (day : Z) (rows : list WorkoutExerciseRow)
    (m : Map Z DayStats) :
  map_get Z.eqb day (fold_left hist_put rows m) =
  fold_left day_step (filter (fun we => (row_day we =? day)%Z) rows)
    (map_get Z.eqb day m).
Proof.
  revert m. induction rows as [|we rows IH]; intros m; cbn [fold_left filter].
  - reflexivity.
  - rewrite IH, get_hist_put. destruct (row_day we =? day)%Z; reflexivity.
Qed.

Lemma hist_put_NoDup (rows : list WorkoutExerciseRow) (m : Map Z DayStats) :
  NoDup (map fst m) -> NoDup (map fst (fold_left hist_put rows m)).
Proof.
  revert m. induction rows as [|we rows IH]; intros m H; cbn [fold_left].
  - exact H.
  - apply IH. apply (map_set_NoDup _ Z.eqb_eq), H.
Qed.

Lemma max_weight_of_nil : max_weight_of [] 0.
Proof. repeat split; [intros s [] | left; reflexivity | apply Qle_refl]. Qed.

Lemma day_max_from (ss ss0 : list SetRow) (m0 : Q) :
  max_weight_of ss0 m0 -> max_weight_of (ss0 ++ ss) (day_max ss m0).
Proof.
  revert ss0 m0. induction ss as [|s ss IH]; intros ss0 m0 H.
  - rewrite app_nil_r. exact H.
  - cbn [day_max fold_left].
    replace (ss0 ++ s :: ss) with ((ss0 ++ [s]) ++ ss)
      by (rewrite <- app_assoc; reflexivity).
    apply IH. destruct H as (Hub & Hat & H0).
    destruct (gtb (weight_of s) m0) eqn:E.
    + apply gtb_true in E. repeat split.
      * intros x Hx. apply in_app_or in Hx. destruct Hx as [Hx | [<- | []]].
        -- specialize (Hub x Hx). lra.
        -- apply Qle_refl.
      * right. exists s. split; [apply in_or_app; right; left|]; reflexivity.
      * lra.
    + apply gtb_false in E. repeat split.
      * intros x Hx. apply in_app_or in Hx. destruct Hx as [Hx | [<- | []]]; auto.
      * destruct Hat as [-> | (x & Hx & ->)]; [left; reflexivity|].
        right. exists x. split; [apply in_or_app; left; exact Hx | reflexivity].
      * exact H0.
Qed.

Lemma Math_max_of (ss1 ss2 : list SetRow) (m1 m2 : Q) :
  max_weight_of ss1 m1 -> max_weight_of ss2 m2 ->
  max_weight_of (ss1 ++ ss2) (Math_max m1 m2).
Proof.
  intros (Hub1 & Hat1 & H1) (Hub2 & Hat2 & H2). unfold Math_max.
  destruct (gtb m2 m1) eqn:E.
  - apply gtb_true in E. repeat split; [| |exact H2].
    + intros x Hx. apply in_app_or in Hx. destruct Hx as [Hx | Hx]; auto.
      specialize (Hub1 x Hx). lra.
    + destruct Hat2 as [-> | (x & Hx & ->)]; [left; reflexivity|].
      right. exists x. split; [apply in_or_app; right; exact Hx | reflexivity].
  - apply gtb_false in E. repeat split; [| |exact H1].
    + intros x Hx. apply in_app_or in Hx. destruct Hx as [Hx | Hx]; auto.
      specialize (Hub2 x Hx). lra.
    + destruct Hat1 as [-> | (x & Hx & ->)]; [left; reflexivity|].
      right. exists x. split; [apply in_or_app; left; exact Hx | reflexivity].
Qed.

Lemma rows_volume_snoc (es0 : list WorkoutExerciseRow)
    (we : WorkoutExerciseRow) :
  rows_volume (es0 ++ [we]) =
  (rows_volume es0 + volume_of (arr (sets we)))%float.
Proof. unfold rows_volume. rewrite fold_left_app. reflexivity. Qed.

(** One more row of the day keeps the value of the day right. *)
Lemma merge_sets (es0 : list WorkoutExerciseRow) (cur : DayStats)
    (we : WorkoutExerciseRow) :
  max_weight_of (flat_map (fun we => arr (sets we)) es0) (d_maxWeight cur) ->
  d_totalVolume cur = rows_volume es0 ->
  max_weight_of (flat_map (fun we => arr (sets we)) (es0 ++ [we])) (d_maxWeight (merge cur we)) /\
  d_totalVolume (merge cur we) = rows_volume (es0 ++ [we]).
Proof.
  intros Hm Hv. unfold merge. cbn [d_maxWeight d_totalVolume]. split.
  - rewrite flat_map_app. cbn [flat_map]. rewrite app_nil_r.
    apply Math_max_of; [exact Hm|].
    apply (day_max_from (arr (sets we)) max_weight_of_nil).
  - rewrite rows_volume_snoc, Hv. reflexivity.
Qed.

Lemma day_fold_from (es : list WorkoutExerciseRow) :
  forall (es0 : list WorkoutExerciseRow) (cur : DayStats),
    max_weight_of (flat_map (fun we => arr (sets we)) es0) (d_maxWeight cur) ->
    d_totalVolume cur = rows_volume es0 ->
    exists st,
      fold_left day_step es (Some cur) = Some st /\
      max_weight_of (flat_map (fun we => arr (sets we)) (es0 ++ es)) (d_maxWeight st) /\
      d_totalVolume st = rows_volume (es0 ++ es).
Proof.
  induction es as [|we es IH]; intros es0 cur Hm Hv.
  - exists cur. cbn [fold_left]. rewrite app_nil_r. auto.
  - cbn [fold_left day_step or_zero].
    destruct (@merge_sets es0 cur we Hm Hv) as [Hm' Hv'].
    destruct (IH _ _ Hm' Hv') as (st & Hst & Hm'' & Hv'').
    exists st. rewrite <- app_assoc in Hm'', Hv''. auto.
Qed.

(** The value of a day that has rows. *)
Lemma day_fold (es : list WorkoutExerciseRow) :
  es <> [] ->
  exists st,
    fold_left day_step es None = Some st /\
    max_weight_of (flat_map (fun we => arr (sets we)) es) (d_maxWeight st) /\
    d_totalVolume st = rows_volume es.
Proof.
  destruct es as [|we es]; [congruence | intros _].
  change (fold_left day_step (we :: es) None)
    with (fold_left day_step (we :: es) (Some zero_day)).
  apply (@day_fold_from (we :: es) [] zero_day).
  - apply max_weight_of_nil.
  - reflexivity.
Qed.

Lemma day_fold_none (es : list WorkoutExerciseRow) (st : DayStats) :
  fold_left day_step es None = Some st -> es <> [].
Proof. destruct es; [discriminate | discriminate]. Qed.

Lemma historyArray_entries (user : string)
    (rows : option (list WorkoutExerciseRow)) :
  historyArray user rows =
  slice_last 10
    (Array_sort by_date_asc (history_entries (userWorkouts user rows))).
Proof. reflexivity. Qed.

Lemma accumulate_get (day : Z) (rows : list WorkoutExerciseRow) :
  map_get Z.eqb day (historyMap (accumulate rows)) =
  fold_left day_step (filter (fun we => (row_day we =? day)%Z) rows) None.
Proof.
  unfold accumulate. rewrite accumulate_history, get_fold_hist_put. reflexivity.
Qed.

Lemma accumulate_NoDup (rows : list WorkoutExerciseRow) :
  NoDup (map fst (historyMap (accumulate rows))).
Proof.
  unfold accumulate. rewrite accumulate_history.
  apply hist_put_NoDup. constructor.
Qed.

Lemma history_entries_In (h : ExerciseHistory) (rows : list WorkoutExerciseRow) :
  In h (history_entries rows) <->
  map_get Z.eqb (h_date h) (historyMap (accumulate rows)) =
  Some {| d_maxWeight := h_maxWeight h; d_totalVolume := h_totalVolume h |}.
Proof.
  unfold history_entries, map_entries. rewrite in_map_iff. split.
  - intros ([d [mw tv]] & <- & Hin). cbn.
    apply (In_map_get _ Z.eqb_eq); [apply accumulate_NoDup | exact Hin].
  - intros H. apply (map_get_In _ Z.eqb_eq) in H.
    eexists. split; [|exact H]. destruct h; reflexivity.
Qed.

Lemma history_entries_dates (rows : list WorkoutExerciseRow) :
  NoDup (map h_date (history_entries rows)).
Proof.
  unfold history_entries, map_entries. rewrite map_map.
  erewrite map_ext; [apply accumulate_NoDup|]. intros [d st]. reflexivity.
Qed.

(** An entry stands for a day that has rows, with the greatest weight and
    the total volume of the sets of that day. *)
Lemma history_entry_day (h : ExerciseHistory) (rows : list WorkoutExerciseRow) :
  In h (history_entries rows) ->
  (exists we, In we rows /\ row_day we = h_date h) /\
  max_weight_of (day_sets (h_date h) rows) (h_maxWeight h) /\
  h_totalVolume h = day_volume (h_date h) rows.
Proof.
  intros H. apply history_entries_In in H. rewrite accumulate_get in H.
  pose proof (@day_fold_none _ _ H) as Hne.
  destruct (day_fold Hne) as (st & Hst & Hm & Hv).
  rewrite Hst in H. injection H as ->. cbn [d_maxWeight d_totalVolume] in *.
  split; [|split; assumption].
  destruct (filter (fun we => (row_day we =? h_date h)%Z) rows) as [|we es] eqn:E;
    [congruence|].
  assert (Hin : In we (filter (fun we => (row_day we =? h_date h)%Z) rows))
    by (rewrite E; left; reflexivity).
  apply filter_In in Hin. exists we. split; [tauto|]. apply Z.eqb_eq. tauto.
Qed.

(** Every day that has a row has an entry. *)
Lemma history_day_entry (we : WorkoutExerciseRow) (rows : list WorkoutExerciseRow) :
  In we rows -> exists h, In h (history_entries rows) /\ h_date h = row_day we.
Proof.
  intros Hin.
  assert (Hne : filter (fun x => (row_day x =? row_day we)%Z) rows <> []).
  { intros Hnil.
    assert (H : In we (filter (fun x => (row_day x =? row_day we)%Z) rows))
      by (apply filter_In; split; [exact Hin | apply Z.eqb_refl]).
    rewrite Hnil in H. destruct H. }
  destruct (day_fold Hne) as (st & Hst & _).
  exists {| h_date := row_day we; h_maxWeight := d_maxWeight st;
            h_totalVolume := d_totalVolume st |}.
  split; [|reflexivity]. apply history_entries_In. cbn.
  rewrite accumulate_get, Hst. destruct st; reflexivity.
Qed.






End HistoryFacts.

(* ================================================================== *)
(** * Part IV: further properties of the code                          *)
(* ================================================================== *)

(** ** The settings provider *)
Section ProviderFacts.
Import Js Settings.
Local Open Scope string_scope.
Local Open Scope Q_scope.

Lemma initialUnit_nonempty (s : string) :
  s <> EmptyString -> initialUnit true (Some s) = s.
Proof. destruct s; [congruence | reflexivity]. Qed.

Lemma initialUnit_not_empty (saved : option string) :
  initialUnit true saved <> EmptyString.
Proof. destruct saved as [[|c s]|]; discriminate. Qed.

(** X1.  A preference set in the settings survives a reload: after
    [setUnit u] the stored entry makes the next start begin with [u], for
    every non-empty [u] and whatever was stored before.  A start always
    leaves its own unit in the store, so a second start gives the same
    provider. *)
Theorem setUnit_survives_reload (saved : option string) (u : UnitPreference) :
  u <> EmptyString ->
  p_unit (mount (p_stored (setUnit (mount saved) u))) = u /\
  p_stored (setUnit (mount saved) u) = Some u /\
  mount (p_stored (mount saved)) = mount saved.
Proof.
  intros Hu.
  assert (Hs : p_stored (setUnit (mount saved) u) = Some u).
  { unfold setUnit. destruct (String.eqb u (p_unit (mount saved))) eqn:E.
    - apply String.eqb_eq in E. rewrite E. reflexivity.
    - reflexivity. }
  split; [|split].
  - rewrite Hs. cbn [mount persist p_unit]. apply initialUnit_nonempty, Hu.
  - exact Hs.
  - unfold mount, persist. cbn -[initialUnit]. unfold UnitPreference.
    rewrite (initialUnit_nonempty (initialUnit_not_empty saved)). reflexivity.
Qed.

(** X1 at a first start with an empty store, then a switch to lbs. *)
Lemma setUnit_survives_reload_witness :
  p_unit (mount (p_stored (setUnit (mount None) "lbs"))) = "lbs".
Proof.
  apply (proj1 (@setUnit_survives_reload None "lbs" ltac:(discriminate))).
Defined.

End ProviderFacts.

(** ** The conversion in exact arithmetic *)
Section ExactFacts.
Import Js Settings Exact.
Local Open Scope string_scope.
Local Open Scope Q_scope.



End ExactFacts.

(** ** The dashboard *)
Section DashboardFacts.
Import Js DateFns Dashboard.
Local Open Scope string_scope.
Local Open Scope list_scope.
Local Open Scope Z_scope.

Lemma streak_loop_bounds (ws : list Workout) (checkDate n : Z) :
  n <= streak_loop checkDate n ws <= n + Z.of_nat (length ws).
Proof.
  destruct (streak_loop_walk ws checkDate n) as (counted & rest & -> & -> & _).
  rewrite length_app. lia.
Qed.

Lemma streak_loop_shift (ws : list Workout) (checkDate n : Z) :
  streak_loop checkDate n ws = n + streak_loop checkDate 0 ws.
Proof.
  revert checkDate n. induction ws as [|w ws IH]; intros checkDate n.
  - cbn. lia.
  - cbn [streak_loop].
    destruct (differenceInDays checkDate (completed_at w) <=? 1); [|lia].
    rewrite (IH _ (n + 1)), (IH _ (0 + 1)). lia.
Qed.

Lemma streak_loop_app (ws more : list Workout) (checkDate n : Z) :
  streak_loop checkDate n ws <= streak_loop checkDate n (ws ++ more).
Proof.
  revert checkDate n. induction ws as [|w ws IH]; intros checkDate n.
  - cbn [app streak_loop]. apply streak_loop_bounds.
  - cbn [app streak_loop].
    destruct (differenceInDays checkDate (completed_at w) <=? 1); [apply IH | lia].
Qed.

(** X3.  The streak is never negative and never more than the number of
    completed workouts, and workouts added at the old end of the list never
    lower it. *)
Theorem currentStreak_bounds (today : Z) (ws more : list Workout) :
  0 <= currentStreak today (Some ws) <= totalWorkouts (Some ws) /\
  currentStreak today (Some ws) <= currentStreak today (Some (ws ++ more)).
Proof.
  unfold currentStreak, totalWorkouts. cbn [arr]. split.
  - destruct (0 <? Z.of_nat (length ws)); [|lia].
    pose proof (streak_loop_bounds ws today 0). lia.
  - destruct ws as [|w ws].
    + cbn [app length Z.of_nat Z.ltb Z.compare].
      destruct (0 <? Z.of_nat (length more)); [|lia].
      pose proof (streak_loop_bounds more today 0). lia.
    + cbn [app length].
      replace (0 <? Z.of_nat (S (length ws))) with true
        by (symmetry; apply Z.ltb_lt; lia).
      replace (0 <? Z.of_nat (S (length (ws ++ more)))) with true
        by (symmetry; apply Z.ltb_lt; lia).
      apply (streak_loop_app (w :: ws) more).
Qed.

(** X4.  The streak is 0 exactly when there is no completed workout or the
    most recent one lies two full days or more before now; the older
    workouts play no part in that. *)
Theorem currentStreak_zero_iff (today : Z) (ws : list Workout) :
  currentStreak today (Some ws) = 0 <->
  match ws with
  | [] => True
  | latest :: _ => 1 < differenceInDays today (completed_at latest)
  end.
Proof.
  unfold currentStreak. destruct ws as [|w ws]; [cbn; tauto|].
  cbn [length].
  replace (0 <? Z.of_nat (S (length ws))) with true
    by (symmetry; apply Z.ltb_lt; lia).
  cbn [streak_loop].
  destruct (differenceInDays today (completed_at w) <=? 1) eqn:E.
  - apply Z.leb_le in E.
    pose proof (streak_loop_bounds ws (completed_at w) (0 + 1)). lia.
  - apply Z.leb_gt in E. tauto.
Qed.

Lemma calendarDay_midnight (d : Z) : calendarDay (d * MS_PER_DAY) = d.
Proof. unfold calendarDay, MS_PER_DAY. apply Z.div_mul. lia. Qed.

Lemma calendarDay_addDays (date n : Z) :
  calendarDay (addDays date n) = calendarDay date + n.
Proof. unfold calendarDay, addDays, MS_PER_DAY. apply Z.div_add. lia. Qed.

(** The week of [startOfWeek] begins on a Monday and holds the date. *)
Lemma startOfWeek_monday (date : Z) :
  getDay (startOfWeek date 1) = 1 /\
  0 <= calendarDay date - calendarDay (startOfWeek date 1) <= 6.
Proof.
  unfold startOfWeek. unfold getDay at 1. rewrite !calendarDay_midnight.
  unfold getDay.
  pose proof (Z.mod_pos_bound (calendarDay date + 4) 7 ltac:(lia)) as Hb.
  pose proof (Z.div_mod (calendarDay date + 4) 7 ltac:(lia)) as Hd.
  set (r := (calendarDay date + 4) mod 7) in *.
  set (q := (calendarDay date + 4) / 7) in *.
  destruct (r <? 1) eqn:E.
  - apply Z.ltb_lt in E. assert (r = 0) by lia. split; [|lia].
    replace (calendarDay date - (7 + r - 1) + 4) with (1 + (q - 1) * 7) by lia.
    rewrite Z.mod_add by lia. reflexivity.
  - apply Z.ltb_ge in E. split; [|lia].
    replace (calendarDay date - (0 + r - 1) + 4) with (1 + q * 7) by lia.
    rewrite Z.mod_add by lia. reflexivity.
Qed.

Lemma mark_days_map (weekStart : Z) (g : nat -> bool) (w : Workout) :
  mark_days weekStart (map g (seq 0 7)) w =
  map (fun i => g i || isSameDay (completed_at w) (addDays weekStart (Z.of_nat i)))
      (seq 0 7).
Proof.
  unfold mark_days. cbn [seq map fold_left].
  repeat match goal with
    | |- context [if ?c then _ else _] => destruct c
    end;
    cbn [set_true]; rewrite ?orb_true_r, ?orb_false_r; reflexivity.
Qed.

Lemma mark_all_map (weekStart : Z) (ws : list Workout) (g : nat -> bool) :
  fold_left (mark_days weekStart) ws (map g (seq 0 7)) =
  map (fun i =>
         g i || existsb (fun w => isSameDay (completed_at w)
                                    (addDays weekStart (Z.of_nat i))) ws)
      (seq 0 7).
Proof.
  revert g. induction ws as [|w ws IH]; intros g; cbn [fold_left existsb].
  - apply map_ext. intros i. rewrite orb_false_r. reflexivity.
  - rewrite mark_days_map, IH. apply map_ext. intros i.
    rewrite orb_assoc. reflexivity.
Qed.

(** X5.  The seven dots of the week: dot [i] is lit exactly when a workout
    was completed on the [i]-th day of the week that starts on the Monday
    on or before today; that week holds today, so a workout of today always
    lights a dot, and workouts of other weeks light none. *)
Theorem weeklyWorkouts_marks (now : Z) (workouts : option (list Workout)) :
  weeklyWorkouts now workouts =
    map (fun i =>
           existsb (fun w => calendarDay (completed_at w) =?
                             calendarDay (startOfWeek now 1) + Z.of_nat i)
                   (arr workouts))
        (seq 0 7) /\
  getDay (startOfWeek now 1) = 1 /\
  0 <= calendarDay now - calendarDay (startOfWeek now 1) <= 6.
Proof.
  split; [|apply startOfWeek_monday].
  unfold weeklyWorkouts.
  change (repeat false 7) with (map (fun _ : nat => false) (seq 0 7)).
  rewrite mark_all_map. apply map_ext. intros i. cbn [orb].
  induction (arr workouts) as [|w ws IH]; cbn [existsb]; [reflexivity|].
  rewrite IH. unfold isSameDay. rewrite calendarDay_addDays. reflexivity.
Qed.

End DashboardFacts.

(** ** The progress page *)
Section ProgressFacts.
Import PrimFloat.
Import Js DateFns Progress Spec Views Samples More.
Local Open Scope string_scope.
Local Open Scope list_scope.
Local Open Scope Q_scope.

Ltac decide_week :=
  repeat match goal with
    | |- context [(?a <=? ?b)%Z] =>
        first [ replace (a <=? b)%Z with true by (symmetry; apply Z.leb_le; lia)
              | replace (a <=? b)%Z with false by (symmetry; apply Z.leb_gt; lia) ]
    | |- context [(?a <? ?b)%Z] =>
        first [ replace (a <? b)%Z with true by (symmetry; apply Z.ltb_lt; lia)
              | replace (a <? b)%Z with false by (symmetry; apply Z.ltb_ge; lia) ]
    end.

Lemma add_workout_sets (weekStart weekEnd : Z) (v : float) (w : Workout) :
  add_workout weekStart weekEnd v w =
  fold_left (fun v s => (v + set_volume s)%float)
    (if in_bucket weekStart weekEnd w then workout_sets w else []) v.
Proof.
  unfold add_workout. fold (in_bucket weekStart weekEnd w).
  destruct (in_bucket weekStart weekEnd w); [|reflexivity].
  unfold workout_sets. rewrite fold_left_flat_map. reflexivity.
Qed.

(** The running sum of a bucket goes through the sets of its workouts in
    the order of the query. *)
Lemma bucket_volume (weekStart weekEnd : Z) (ws : list Workout) (v : float) :
  fold_left (add_workout weekStart weekEnd) ws v =
  fold_left (fun v s => (v + set_volume s)%float)
    (sets_between weekStart weekEnd ws) v.
Proof.
  unfold sets_between. revert v.
  induction ws as [|w ws IH]; intros v; cbn [fold_left filter]; [reflexivity|].
  rewrite IH, add_workout_sets.
  destruct (in_bucket weekStart weekEnd w); cbn [flat_map fold_left];
    [rewrite fold_left_app|]; reflexivity.
Qed.

(** X6.  Each of the seven entries reports [Math.round] of the volume of
    its seven days, which start 42, 35, ..., 7 and 0 days before now: the
    running binary64 sum, from 0, of weight x reps over the sets of the
    workouts completed in those days, in the order of the query.  A set of
    2.3 x 25 is reported as 57: the product of the doubles is
    57.49999999999999. *)
Theorem weeklyVolume_totals (now : Z) (workouts : option (list Workout)) :
  weeklyVolume now workouts =
    map (fun i =>
           {| wv_date := subDays now (i * 7);
              wv_volume :=
                Math_round
                  (volume_between (subDays now (i * 7))
                     (subDays now ((i - 1) * 7)) (arr workouts)) |})
        [6; 5; 4; 3; 2; 1; 0]%Z /\
  map wv_volume
    (weeklyVolume now (Some [workout_at (subDays now 1) [one_set (23 # 10) 25]]))
    = [0; 0; 0; 0; 0; 57; 0]%float.
Proof.
  split.
  - rewrite weeklyVolume_buckets. apply map_ext. intros i. f_equal.
    rewrite bucket_volume. reflexivity.
  - rewrite weeklyVolume_buckets.
    cbn [map arr fold_left wv_volume].
    unfold add_workout, workout_at, subDays, MS_PER_DAY. cbn [completed_at].
    decide_week. reflexivity.
Qed.

Lemma in_bucket_outside (now : Z) (w : Workout) (i : Z) :
  (completed_at w < subDays now 42 \/ subDays now (-7) <= completed_at w)%Z ->
  In i [6; 5; 4; 3; 2; 1; 0]%Z ->
  in_bucket (subDays now (i * 7)) (subDays now ((i - 1) * 7)) w = false.
Proof.
  unfold in_bucket, subDays, MS_PER_DAY. intros Hout Hi.
  apply andb_false_iff.
  destruct Hout as [Hlo | Hhi].
  - left. apply Z.leb_gt. cbn in Hi. lia.
  - right. apply Z.ltb_ge. cbn in Hi. lia.
Qed.

(** X7.  Only the last 42 days and the 7 days to come are looked at: a
    workout completed earlier, or later, changes nothing in the series,
    wherever it stands in the list. *)
Theorem weeklyVolume_window (now : Z) (before after : list Workout) (w : Workout) :
  (completed_at w < subDays now 42 \/ subDays now (-7) <= completed_at w)%Z ->
  weeklyVolume now (Some (before ++ w :: after)) =
  weeklyVolume now (Some (before ++ after)).
Proof.
  intros Hout. rewrite !weeklyVolume_buckets. apply map_ext_in. intros i Hi.
  f_equal. rewrite !bucket_volume. f_equal. unfold sets_between. cbn [arr].
  rewrite !filter_app. cbn [filter].
  rewrite (@in_bucket_outside now w i Hout Hi). reflexivity.
Qed.

Lemma weeklyVolume_window_witness :
  weeklyVolume 0 (Some ([] ++ workout_at (subDays 0 50) [one_set 50 10] :: [])) =
  weeklyVolume 0 (Some ([] ++ [])).
Proof.
  apply (@weeklyVolume_window 0 [] [] (workout_at (subDays 0 50) [one_set 50 10])).
  left. cbn. lia.
Defined.

(** X8.  The order of the workouts matters within a week only: two lists
    of workouts in which each of the seven weeks holds the same workouts in
    the same order give the same series, however the weeks are interleaved
    and whatever lies outside them. *)
Theorem weeklyVolume_order_across_weeks (now : Z) (ws ws' : list Workout) :
  (forall i, In i [6; 5; 4; 3; 2; 1; 0]%Z ->
     filter (in_bucket (subDays now (i * 7)) (subDays now ((i - 1) * 7))) ws =
     filter (in_bucket (subDays now (i * 7)) (subDays now ((i - 1) * 7))) ws') ->
  weeklyVolume now (Some ws) = weeklyVolume now (Some ws').
Proof.
  intros Hsame. rewrite !weeklyVolume_buckets. apply map_ext_in. intros i Hi.
  f_equal. rewrite !bucket_volume. f_equal. unfold sets_between. cbn [arr].
  rewrite (Hsame i Hi). reflexivity.
Qed.

(** X8 on a workout of yesterday and one of ten days ago, in either
    order. *)
Lemma weeklyVolume_order_across_weeks_witness :
  weeklyVolume 0
    (Some [workout_at (subDays 0 1) [one_set (913 # 10) 1];
           workout_at (subDays 0 10) [one_set (864 # 10) 1]]) =
  weeklyVolume 0
    (Some [workout_at (subDays 0 10) [one_set (864 # 10) 1];
           workout_at (subDays 0 1) [one_set (913 # 10) 1]]).
Proof.
  apply (@weeklyVolume_order_across_weeks 0
           [workout_at (subDays 0 1) [one_set (913 # 10) 1];
            workout_at (subDays 0 10) [one_set (864 # 10) 1]]
           [workout_at (subDays 0 10) [one_set (864 # 10) 1];
            workout_at (subDays 0 1) [one_set (913 # 10) 1]]).
  intros i Hi. cbn in Hi.
  repeat (destruct Hi as [<- | Hi]; [reflexivity|]). destruct Hi.
Defined.

(** X23.  Within a week the order matters, down to the order in which the
    store returns the sets of a workout, which the query leaves open: the
    same three sets, of 91.3, 86.4 and 524.8 kg for one repetition each,
    are reported as 703 in one order and as 702 in the other, since their
    binary64 sum is 702.5 in the first and the double before 702.5 in the
    second. *)
Theorem weeklyVolume_order_matters (now : Z) :
  let light_first :=
    [one_set (913 # 10) 1; one_set (864 # 10) 1; one_set (5248 # 10) 1] in
  let heavy_first :=
    [one_set (5248 # 10) 1; one_set (864 # 10) 1; one_set (913 # 10) 1] in
  Permutation light_first heavy_first /\
  map wv_volume
    (weeklyVolume now (Some [workout_at (subDays now 1) light_first]))
    = [0; 0; 0; 0; 0; 703; 0]%float /\
  map wv_volume
    (weeklyVolume now (Some [workout_at (subDays now 1) heavy_first]))
    = [0; 0; 0; 0; 0; 702; 0]%float.
Proof.
  cbv zeta. split; [|split].
  - apply Permutation_rev with (l := [one_set (913 # 10) 1; one_set (864 # 10) 1;
                                      one_set (5248 # 10) 1]).
  - rewrite weeklyVolume_buckets.
    cbn [map arr fold_left wv_volume].
    unfold add_workout, workout_at, subDays, MS_PER_DAY. cbn [completed_at].
    decide_week. reflexivity.
  - rewrite weeklyVolume_buckets.
    cbn [map arr fold_left wv_volume].
    unfold add_workout, workout_at, subDays, MS_PER_DAY. cbn [completed_at].
    decide_week. reflexivity.
Qed.

Ltac bool_to_Z :=
  repeat match goal with
    | H : _ && _ = true |- _ => apply andb_true_iff in H; destruct H
    | H : _ && _ = false |- _ => apply andb_false_iff in H; destruct H
    | H : (_ <=? _)%Z = true |- _ => apply Z.leb_le in H
    | H : (_ <=? _)%Z = false |- _ => apply Z.leb_gt in H
    | H : (_ <? _)%Z = true |- _ => apply Z.ltb_lt in H
    | H : (_ <? _)%Z = false |- _ => apply Z.ltb_ge in H
    | H : (_ =? _)%Z = true |- _ => apply Z.eqb_eq in H
    | H : (_ =? _)%Z = false |- _ => apply Z.eqb_neq in H
    end.

Lemma count_day_step (first : Z) (n : nat) (ws : list Workout) :
  (Z.of_nat (length (filter (in_days first (first + Z.of_nat n)) ws)) =
   Z.of_nat (length (filter (in_days first (first + Z.of_nat n - 1)) ws)) +
   Z.of_nat (length (filter
      (fun w => isSameDay (completed_at w) ((first + Z.of_nat n) * MS_PER_DAY)) ws)))%Z.
Proof.
  induction ws as [|w ws IH]; [reflexivity|].
  cbn [filter].
  destruct (in_days first (first + Z.of_nat n) w) eqn:A,
    (in_days first (first + Z.of_nat n - 1) w) eqn:B,
    (isSameDay (completed_at w) ((first + Z.of_nat n) * MS_PER_DAY)) eqn:C;
    cbn [length];
    unfold in_days, isSameDay in A, B, C;
    rewrite calendarDay_midnight in C;
    bool_to_Z; lia.
Qed.

Lemma month_sum (first : Z) (n : nat) (ws : list Workout) :
  workoutsThisMonth
    (map (fun day =>
            {| dc_day := day;
               dc_count := Z.of_nat (length (filter
                 (fun w => isSameDay (completed_at w) day) ws)) |})
         (map (fun k => ((first + Z.of_nat k) * MS_PER_DAY)%Z) (seq 0 n))) =
  Z.of_nat (length (filter (in_days first (first + Z.of_nat n - 1)) ws)).
Proof.
  unfold workoutsThisMonth. induction n as [|n IH].
  - cbn [seq map fold_left]. symmetry.
    replace (filter _ ws) with (@nil Workout); [reflexivity|].
    symmetry. induction ws as [|w ws IHw]; [reflexivity|].
    cbn [filter]. unfold in_days at 1.
    destruct (first <=? calendarDay (completed_at w))%Z eqn:E1,
      (calendarDay (completed_at w) <=? first + Z.of_nat 0 - 1)%Z eqn:E2;
      cbn [andb]; try exact IHw.
    bool_to_Z. lia.
  - rewrite seq_S, !map_app, fold_left_app. cbn [map fold_left plus dc_count].
    rewrite IH.
    replace (first + Z.of_nat (S n) - 1)%Z with (first + Z.of_nat n)%Z by lia.
    symmetry. apply count_day_step.
Qed.

(** X9.  The frequency series has one entry for each day from the first of
    the month to today, and the number of workouts this month, the sum of
    its counts, is the number of workouts completed on those days: every
    such workout counts once, also when several fall on one day. *)
Theorem workoutsThisMonth_counts (monthStart today : Z)
    (workouts : option (list Workout)) :
  (calendarDay monthStart <= calendarDay today)%Z ->
  Z.of_nat (length (monthlyWorkouts monthStart today workouts)) =
    (calendarDay today - calendarDay monthStart + 1)%Z /\
  workoutsThisMonth (monthlyWorkouts monthStart today workouts) =
    Z.of_nat (length (filter (in_days (calendarDay monthStart) (calendarDay today))
                        (arr workouts))).
Proof.
  intros Hle. unfold monthlyWorkouts, eachDayOfInterval. split.
  - rewrite !length_map, length_seq. lia.
  - rewrite month_sum, Z2Nat.id by lia.
    replace (calendarDay monthStart +
             (calendarDay today - calendarDay monthStart + 1) - 1)%Z
      with (calendarDay today) by lia.
    reflexivity.
Qed.

Lemma workoutsThisMonth_counts_witness :
  workoutsThisMonth
    (monthlyWorkouts 0 (2 * MS_PER_DAY)
       (Some [workout_at 5 []; workout_at 9 []; workout_at (3 * MS_PER_DAY) []]))
  = 2%Z.
Proof.
  refine (eq_trans (proj2 (@workoutsThisMonth_counts 0 (2 * MS_PER_DAY) _ _)) _).
  - cbn. lia.
  - reflexivity.
Defined.

Lemma NoDup_firstn (A : Type) (n : nat) (l : list A) :
  NoDup l -> NoDup (firstn n l).
Proof.
  intros H. rewrite <- (firstn_skipn n l) in H.
  apply NoDup_app_remove_r in H. exact H.
Qed.

(** X10.  No exercise appears twice in the personal records. *)
Theorem personalRecords_one_per_exercise (workouts : option (list Workout)) :
  NoDup (map pr_exercise (personalRecords workouts)).
Proof.
  unfold personalRecords, slice_first. rewrite <- firstn_map.
  apply NoDup_firstn.
  eapply Permutation_NoDup.
  - apply Permutation_map, Permutation_sym, Array_sort_perm.
  - unfold pr_entries, map_entries. rewrite map_map.
    erewrite map_ext.
    + rewrite prMap_of_logged. apply pr_put_NoDup. constructor.
    + intros [k v]. reflexivity.
Qed.

End ProgressFacts.

(** ** The statistics of one exercise *)
Section StatsFacts.
Import PrimFloat.
Import Js DateFns ExerciseDetails Spec Views Samples More.
Local Open Scope string_scope.
Local Open Scope list_scope.
Local Open Scope Q_scope.

Lemma set_fold_stats (ss : list SetRow) (a : SetAcc) :
  s_maxWeight (fold_left set_step ss a) = day_max ss (s_maxWeight a) /\
  s_totalSets (fold_left set_step ss a) = (s_totalSets a + Z.of_nat (length ss))%Z.
Proof.
  revert a. induction ss as [|s ss IH]; intros a.
  - cbn. split; [reflexivity | lia].
  - cbn [fold_left day_max length]. destruct (IH (set_step a s)) as [-> ->].
    split; [reflexivity|]. cbn [set_step s_totalSets]. lia.
Qed.

Lemma accumulate_stats (rows : list WorkoutExerciseRow) (a : Acc) :
  maxWeight (fold_left entry_step rows a) = day_max (all_sets rows) (maxWeight a) /\
  totalSets (fold_left entry_step rows a) =
    (totalSets a + Z.of_nat (length (all_sets rows)))%Z.
Proof.
  revert a. induction rows as [|we rows IH]; intros a.
  - cbn. split; [reflexivity | lia].
  - cbn [fold_left all_sets flat_map]. destruct (IH (entry_step a we)) as [-> ->].
    unfold entry_step. cbn [maxWeight totalSets].
    match goal with
    | |- context [fold_left set_step ?ss ?a0] =>
        destruct (set_fold_stats ss a0) as [-> ->]
    end.
    cbn [s_maxWeight s_totalSets]. fold (all_sets rows).
    unfold day_max at 3. rewrite fold_left_app. fold (day_max (arr (sets we)) (maxWeight a)).
    rewrite length_app. split; [reflexivity | lia].
Qed.

Lemma stats_maxWeight (user : string) (rows : option (list WorkoutExerciseRow)) :
  max_weight_of (all_sets (userWorkouts user rows))
    (st_maxWeight (stats user rows)).
Proof.
  unfold stats, accumulate. cbn [st_maxWeight].
  destruct (accumulate_stats (userWorkouts user rows)
              {| maxWeight := 0; totalSets := 0; historyMap := [] |}) as [-> _].
  apply (day_max_from (all_sets (userWorkouts user rows)) max_weight_of_nil).
Qed.

(** X11.  The all-time statistics range over all sets of the qualifying
    rows: the number of sets counts every one of them, with or without a
    weight, and the maximum is their greatest weight, or 0 when none is
    above 0 (the page then shows a dash). *)
Theorem stats_over_all_sets (user : string)
    (rows : option (list WorkoutExerciseRow)) :
  let st := stats user rows in
  st_totalSets st = Z.of_nat (length (all_sets (userWorkouts user rows))) /\
  max_weight_of (all_sets (userWorkouts user rows)) (st_maxWeight st).
Proof.
  cbn zeta. split; [|apply stats_maxWeight].
  unfold stats, accumulate. cbn [st_totalSets].
  destruct (accumulate_stats (userWorkouts user rows)
              {| maxWeight := 0; totalSets := 0; historyMap := [] |}) as [_ ->].
  cbn [totalSets]. lia.
Qed.

Lemma day_sets_all (day : Z) (rows : list WorkoutExerciseRow) (s : SetRow) :
  In s (day_sets day rows) -> In s (all_sets rows).
Proof.
  unfold day_sets, all_sets. intros H. apply in_flat_map in H.
  destruct H as (we & Hwe & Hs). apply filter_In in Hwe.
  apply in_flat_map. exists we. tauto.
Qed.

(** X12.  No point of the history chart lies above the all-time maximum
    shown beside it. *)
Theorem history_below_maxWeight (user : string)
    (rows : option (list WorkoutExerciseRow)) (h : ExerciseHistory) :
  In h (historyArray user rows) ->
  h_maxWeight h <= st_maxWeight (stats user rows).
Proof.
  intros Hh. rewrite historyArray_entries in Hh. unfold slice_last in Hh.
  assert (Hin : In h (history_entries (userWorkouts user rows))).
  { apply (Permutation_in _ (Array_sort_perm by_date_asc _)).
    rewrite <- (firstn_skipn (length (Array_sort by_date_asc
                   (history_entries (userWorkouts user rows))) - 10)).
    apply in_or_app. right. exact Hh. }
  destruct (history_entry_day _ _ Hin) as (_ & (_ & Hat & _) & _).
  destruct (stats_maxWeight user rows) as (Hub & _ & H0).
  destruct Hat as [-> | (s & Hs & ->)]; [exact H0|].
  apply Hub. eapply day_sets_all, Hs.
Qed.

(** X12 on two sessions, at the point of the first day. *)
Lemma history_below_maxWeight_witness :
  h_maxWeight {| h_date := 0; h_maxWeight := 100; h_totalVolume := 1140%float |}
  <= st_maxWeight
       (stats "u"
          (Some [logged "w1" "u" (Some 0%Z) [(100, 5%Z); (80, 8%Z)];
                 logged "w2" "u" (Some MS_PER_DAY) [(120, 3%Z)]])).
Proof.
  apply (@history_below_maxWeight "u"
           (Some [logged "w1" "u" (Some 0%Z) [(100, 5%Z); (80, 8%Z)];
                  logged "w2" "u" (Some MS_PER_DAY) [(120, 3%Z)]])
           {| h_date := 0; h_maxWeight := 100; h_totalVolume := 1140%float |}).
  vm_compute. left. reflexivity.
Defined.

Lemma history_entries_length (rows : list WorkoutExerciseRow) :
  (length (history_entries rows) <= length rows)%nat.
Proof.
  rewrite <- (length_map h_date (history_entries rows)).
  rewrite <- (length_map row_day rows).
  apply NoDup_incl_length; [apply history_entries_dates|].
  intros d Hd. apply in_map_iff in Hd. destruct Hd as (h & <- & Hh).
  destruct (history_entry_day _ _ Hh) as ((we & Hwe & <-) & _).
  apply in_map. exact Hwe.
Qed.

(** X21.  The chart and the session count agree: the history never has
    more points than sessions were counted, and it is empty, so that the
    page reports that there is no history yet, exactly when the count of
    sessions is 0. *)
Theorem history_and_timesPerformed (user : string)
    (rows : option (list WorkoutExerciseRow)) :
  (Z.of_nat (length (historyArray user rows))
   <= st_timesPerformed (stats user rows))%Z /\
  (historyArray user rows = [] <-> st_timesPerformed (stats user rows) = 0%Z).
Proof.
  rewrite historyArray_entries. unfold slice_last, stats. cbn [st_timesPerformed].
  generalize (@history_day_entry) (history_entries_length (userWorkouts user rows))
    (Permutation_length
       (Array_sort_perm by_date_asc (history_entries (userWorkouts user rows)))).
  generalize (userWorkouts user rows) as qualifying. intros qualifying.
  generalize (Array_sort by_date_asc (history_entries qualifying)) as sorted.
  intros sorted Hday Hlen Hp. split.
  - rewrite length_skipn. lia.
  - split; intros H.
    + destruct qualifying as [|we rest]; [reflexivity|]. exfalso.
      destruct (Hday we (we :: rest) (or_introl eq_refl)) as (h & Hh & _).
      apply (f_equal (@length _)) in H. rewrite length_skipn in H.
      cbn [length] in H.
      destruct (history_entries (we :: rest)); [destruct Hh|].
      cbn [length] in Hp. lia.
    + assert (Hs : length sorted = 0%nat) by lia.
      destruct sorted; [reflexivity | discriminate].
Qed.

End StatsFacts.

(** ** The editor of the active workout, all handlers *)
Section EditorMoreFacts.
Import Js ActiveWorkout Spec Samples More.
Local Open Scope string_scope.
Local Open Scope list_scope.
Local Open Scope Z_scope.

Lemma card_eta (we : WorkoutExercise) :
  {| we_id := we_id we; exercise := exercise we; sets := sets we |} = we.
Proof. destruct we; reflexivity. Qed.

Lemma addSet_ids exercises weId cur inserted :
  map we_id (addSet exercises weId cur inserted) = map we_id exercises.
Proof.
  unfold addSet. destruct inserted; [|reflexivity].
  rewrite map_map. apply map_ext. intros we.
  destruct (String.eqb (we_id we) weId); reflexivity.
Qed.

Lemma deleteSet_ids exercises weId setId :
  map we_id (deleteSet exercises weId setId) = map we_id exercises.
Proof.
  unfold deleteSet. rewrite map_map. apply map_ext. intros we.
  destruct (String.eqb (we_id we) weId); reflexivity.
Qed.

Lemma updateSet_ids_numbers exercises setId f :
  map we_id (updateSet exercises setId f) = map we_id exercises /\
  map set_numbers (updateSet exercises setId f) = map set_numbers exercises.
Proof.
  unfold updateSet. rewrite !map_map. split; apply map_ext; intros we; [reflexivity|].
  unfold set_numbers. cbn [sets]. rewrite map_map. apply map_ext. intros s.
  destruct (String.eqb (id s) setId); [destruct f|]; reflexivity.
Qed.

Lemma toggle_ids_numbers exercises setId b :
  map we_id (toggleSetComplete exercises setId b) = map we_id exercises /\
  map set_numbers (toggleSetComplete exercises setId b) = map set_numbers exercises.
Proof.
  unfold toggleSetComplete. rewrite !map_map.
  split; apply map_ext; intros we; [reflexivity|].
  unfold set_numbers. cbn [sets]. rewrite map_map. apply map_ext. intros s.
  destruct (String.eqb (id s) setId); reflexivity.
Qed.

Lemma Forall_numbers (P : list Z -> Prop) (l l' : list WorkoutExercise) :
  map set_numbers l' = map set_numbers l ->
  Forall (fun we => P (set_numbers we)) l ->
  Forall (fun we => P (set_numbers we)) l'.
Proof.
  intros E H.
  rewrite <- (Forall_map set_numbers P) in *. rewrite E. exact H.
Qed.

(** Dropping rows keeps their keys distinct. *)
Lemma filter_keeps_distinct (A B : Type) (key : A -> B) (keep : A -> bool) :
  forall rows : list A,
    NoDup (map key rows) -> NoDup (map key (filter keep rows)).
Proof.
  intros rows Hnd. induction rows as [|x rows IH]; [constructor|].
  cbn [map filter] in *. apply NoDup_cons_iff in Hnd. destruct Hnd as [Hn Hd].
  destruct (keep x); [|exact (IH Hd)].
  cbn [map]. apply NoDup_cons_iff. split; [|exact (IH Hd)].
  rewrite in_map_iff in *. intros (y & Hy & Hin).
  apply filter_In in Hin. apply Hn. exists y. tauto.
Qed.

(** Deleting sets that all carry the highest number removes one set at
    most, and then no set of that number is left. *)
Lemma filter_last (p : SetData -> bool) (n : Z) (l : list SetData) :
  NoDup (map set_number l) ->
  (forall s, In s l -> p s = false -> set_number s = n) ->
  filter p l = l \/
  ((length (filter p l) + 1 = length l)%nat /\
   (exists y, In y l /\ set_number y = n /\ p y = false) /\
   forall s, In s (filter p l) -> set_number s <> n).
Proof.
  induction l as [|x l IH]; intros Hnd Hp; [left; reflexivity|].
  cbn [map] in Hnd. inversion Hnd as [|? ? Hnot Hnd']; subst.
  assert (Hp' : forall s, In s l -> p s = false -> set_number s = n)
    by (intros s Hs; apply Hp; right; exact Hs).
  specialize (IH Hnd' Hp'). cbn [filter].
  destruct (p x) eqn:Ex.
  - destruct IH as [-> | (Hlen & (y & Hy & Hyn & Hyp) & Hne)]; [left; reflexivity|].
    right. cbn [length]. split; [lia|]. split.
    + exists y. split; [right; exact Hy | auto].
    + intros s [<- | Hs]; [|auto].
      intros E. apply Hnot. rewrite E, <- Hyn. apply in_map. exact Hy.
  - assert (Hx : set_number x = n) by (apply Hp; [left; reflexivity | exact Ex]).
    right. destruct IH as [-> | (_ & (y & Hy & Hyn & _) & _)].
    + cbn [length]. split; [lia|]. split.
      * exists x. split; [left; reflexivity | auto].
      * intros s Hs E. apply Hnot. rewrite Hx, <- E. apply in_map. exact Hs.
    + exfalso. apply Hnot. rewrite Hx, <- Hyn. apply in_map. exact Hy.
Qed.

(** Deleting the set with the highest number keeps the numbers unique and
    dense. *)
Lemma delete_last_unique_dense (setId : string) (l : list SetData) :
  unique_dense (map set_number l) ->
  (forall s, In s l -> id s = setId -> set_number s = Z.of_nat (length l)) ->
  unique_dense
    (map set_number (filter (fun s => negb (String.eqb (id s) setId)) l)).
Proof.
  intros [Hnd Hall] Hlast.
  set (p := fun s : SetData => negb (String.eqb (id s) setId)).
  destruct (@filter_last p (Z.of_nat (length l)) l Hnd) as [-> | (Hlen & _ & Hne)].
  - intros s Hs Hps. apply Hlast; [exact Hs|].
    unfold p in Hps. apply negb_false_iff, String.eqb_eq in Hps. exact Hps.
  - split; assumption.
  - split; [apply filter_keeps_distinct, Hnd|].
    rewrite length_map in *. rewrite Forall_forall in *.
    intros k Hk. apply in_map_iff in Hk. destruct Hk as (s & <- & Hs).
    specialize (Hne s Hs).
    assert (Hb : 1 <= set_number s <= Z.of_nat (length l)).
    { apply Hall. apply in_map. apply filter_In in Hs. tauto. }
    lia.
Qed.

Lemma unique_dense_one : unique_dense [1].
Proof.
  split; [repeat constructor; intros [] | repeat constructor; cbn; lia].
Qed.

Lemma unique_dense_none : unique_dense [].
Proof. split; constructor. Qed.

(** Each safe action keeps the invariant. *)
Lemma act_keeps_editor_ok (exercises : list WorkoutExercise) (a : Action) :
  editor_ok exercises -> safe exercises a -> editor_ok (act exercises a).
Proof.
  intros [Hnd Hall] Hsafe. destruct a as [ex ie fs | weId ins | setId f
                                         | setId b | weId setId | weId];
    cbn [act safe] in *.
  - unfold addExercise. destruct ie as [newId|]; [|split; assumption]. split.
    + rewrite map_app. cbn [map we_id]. apply NoDup_app; [exact Hnd | | ].
      * repeat constructor. intros [].
      * intros x Hx [<- | []]. exact (Hsafe Hx).
    + apply Forall_app. split; [exact Hall|]. constructor; [|constructor].
      unfold set_numbers. cbn [sets]. destruct fs;
        [apply unique_dense_one | apply unique_dense_none].
  - split; [|apply addSet_keeps_unique_dense; assumption].
    cbn [click]. destruct (card exercises weId); [|exact Hnd].
    rewrite addSet_ids. exact Hnd.
  - destruct (updateSet_ids_numbers exercises setId f) as [Ei En].
    split; [rewrite Ei; exact Hnd | exact (@Forall_numbers _ _ _ En Hall)].
  - destruct (toggle_ids_numbers exercises setId b) as [Ei En].
    split; [rewrite Ei; exact Hnd | exact (@Forall_numbers _ _ _ En Hall)].
  - cbn [click]. destruct (card exercises weId) as [we|] eqn:Hc; [|split; assumption].
    split; [rewrite deleteSet_ids; exact Hnd|].
    assert (Hid : we_id we = weId).
    { unfold card in Hc. apply find_some in Hc. apply String.eqb_eq, Hc. }
    unfold deleteSet. rewrite Forall_forall in *. intros x Hx.
    apply in_map_iff in Hx. destruct Hx as (we' & <- & Hin).
    destruct (String.eqb (we_id we') (we_id we)) eqn:E; [|apply Hall, Hin].
    apply String.eqb_eq in E.
    assert (we' = we) by (eapply card_unique; eauto; congruence). subst we'.
    unfold set_numbers. cbn [sets].
    apply delete_last_unique_dense; [apply Hall, Hin|].
    intros s Hs Hsid. eapply Hsafe; eauto.
  - unfold removeExercise. split; [apply filter_keeps_distinct, Hnd|].
    rewrite Forall_forall in *. intros x Hx. apply filter_In in Hx. apply Hall, Hx.
Qed.

(** X13.  Whatever the user does in the editor, the cards keep distinct ids
    and set numbers that are unique and dense from 1, as long as the store
    hands out a fresh id for each new card and a set is deleted only when
    it carries the highest number of its card: adding exercises and sets,
    editing and toggling sets, removing exercises and deleting last sets
    all keep the invariant, from the empty editor on. *)
Theorem safe_actions_keep_set_numbers (exercises : list WorkoutExercise)
    (actions : list Action) :
  editor_ok exercises -> all_safe exercises actions ->
  editor_ok (fold_left act actions exercises).
Proof.
  revert exercises. induction actions as [|a actions IH]; intros exercises Hok Hsafe.
  - exact Hok.
  - cbn [fold_left]. destruct Hsafe as [Ha Hrest].
    apply IH; [apply act_keeps_editor_ok; assumption | exact Hrest].
Qed.

(** X13 on a session that starts from the empty editor. *)
Lemma safe_actions_keep_set_numbers_witness :
  editor_ok (fold_left act session []) /\
  map set_numbers (fold_left act session []) = [[1; 2; 3]].
Proof.
  split; [|reflexivity].
  apply (@safe_actions_keep_set_numbers [] session).
  - split; constructor.
  - cbn -[card]. repeat split.
    + intros [].
    + intros we s Hc Hin Hid. cbn in Hc. injection Hc as <-. cbn in Hin |- *.
      destruct Hin as [<- | [<- | [<- | []]]]; cbn in Hid; (discriminate || reflexivity).
    + intros [H | []]. discriminate.
Defined.

End EditorMoreFacts.

(** ** Times and durations as text *)
Section TextFacts.
Import Js ActiveWorkout History More.
Local Open Scope string_scope.
Local Open Scope Z_scope.

Lemma toString_inj (a b : Z) : toString a = toString b -> a = b.
Proof.
  unfold toString. intros H. apply DecimalZ.to_int_inj.
  assert (Hn : forall z, Z.to_int z <> Decimal.Pos Decimal.Nil /\
                         Z.to_int z <> Decimal.Neg Decimal.Nil).
  { intros [|p|p]; cbn; split; try discriminate; intros [= E];
      exact (DecimalPos.Unsigned.to_uint_nonnil p E). }
  destruct (Hn a) as [Ha1 Ha2], (Hn b) as [Hb1 Hb2].
  pose proof (NilZero.isi (Z.to_int a) Ha1 Ha2) as Ea.
  pose proof (NilZero.isi (Z.to_int b) Hb1 Hb2) as Eb.
  rewrite H in Ea. congruence.
Qed.

Lemma uint_digits (d : Decimal.uint) :
  all_digits (NilEmpty.string_of_uint d) = true.
Proof. induction d; cbn [NilEmpty.string_of_uint all_digits]; auto. Qed.

Lemma toString_digits (z : Z) : 0 <= z -> all_digits (toString z) = true.
Proof.
  intros Hz. unfold toString. destruct z as [|p|p]; [reflexivity| |lia].
  cbn [Z.to_int NilZero.string_of_int]. unfold NilZero.string_of_uint.
  pose proof (uint_digits (Pos.to_uint p)) as H.
  destruct (Pos.to_uint p); try exact H; reflexivity.
Qed.

(** Two texts that begin with digits and go on with a character that is
    no digit agree on the digits, on that character and on the rest. *)
Lemma split_digits (a a' : string) (c c' : ascii) (r r' : string) :
  all_digits a = true -> all_digits a' = true ->
  is_digit c = false -> is_digit c' = false ->
  (a ++ String c r)%string = (a' ++ String c' r')%string ->
  a = a' /\ c = c' /\ r = r'.
Proof.
  revert a'. induction a as [|x a IH]; intros [|x' a'] Ha Ha' Hc Hc' E;
    cbn [all_digits String.append] in *.
  - injection E as -> ->. auto.
  - injection E as -> _. apply andb_prop in Ha'. destruct Ha'. congruence.
  - injection E as -> _. apply andb_prop in Ha. destruct Ha. congruence.
  - injection E as -> E. apply andb_prop in Ha, Ha'.
    destruct (IH a' (proj2 Ha) (proj2 Ha') Hc Hc' E) as (-> & -> & ->). auto.
Qed.

Lemma length_append (a b : string) :
  String.length (a ++ b) = (String.length a + String.length b)%nat.
Proof. induction a as [|c a IH]; cbn; [reflexivity | rewrite IH; reflexivity]. Qed.

Lemma below_60 (P : Z -> bool) :
  forallb (fun n => P (Z.of_nat n)) (seq 0 60) = true ->
  forall k, 0 <= k < 60 -> P k = true.
Proof.
  intros H k Hk. rewrite forallb_forall in H.
  rewrite <- (Z2Nat.id k) by lia. apply H. apply in_seq. lia.
Qed.

Lemma two_digits (k : Z) :
  0 <= k < 60 -> all_digits (two k) = true /\ String.length (two k) = 2%nat.
Proof.
  intros Hk.
  pose proof (@below_60
    (fun k => all_digits (two k) && (String.length (two k) =? 2)%nat)
    ltac:(vm_compute; reflexivity) k Hk) as H.
  cbn beta in H. apply andb_prop in H. destruct H as [H1 H2].
  apply Nat.eqb_eq in H2. auto.
Qed.

Lemma two_inj (k k' : Z) : 0 <= k < 60 -> 0 <= k' < 60 -> two k = two k' -> k = k'.
Proof.
  intros Hk Hk' E.
  pose proof (@below_60
    (fun k => forallb (fun n => negb (String.eqb (two k) (two (Z.of_nat n)))
                                || (k =? Z.of_nat n)) (seq 0 60))
    ltac:(vm_compute; reflexivity) k Hk) as H.
  cbn beta in H. rewrite forallb_forall in H.
  specialize (H (Z.to_nat k')). rewrite Z2Nat.id in H by lia.
  rewrite E, String.eqb_refl in H. cbn [negb orb] in H.
  apply Z.eqb_eq, H. apply in_seq. lia.
Qed.

Lemma colon_no_digit : is_digit ":" = false.
Proof. reflexivity. Qed.

(** The three numbers of the clock for a time that is not negative. *)
Lemma clock_parts (s : Z) :
  0 <= s ->
  0 <= s / 3600 /\ 0 <= Z.rem s 3600 / 60 < 60 /\ 0 <= Z.rem s 60 < 60 /\
  s = 3600 * (s / 3600) + 60 * (Z.rem s 3600 / 60) + Z.rem s 60.
Proof.
  intros Hs. rewrite !Z.rem_mod_nonneg by lia.
  pose proof (Z.div_mod s 3600 ltac:(lia)).
  pose proof (Z.mod_pos_bound s 3600 ltac:(lia)).
  pose proof (Z.div_mod (s mod 3600) 60 ltac:(lia)).
  pose proof (Z.mod_pos_bound (s mod 3600) 60 ltac:(lia)).
  pose proof (Z.div_pos s 3600 Hs ltac:(lia)).
  assert (Hm : s mod 60 = (s mod 3600) mod 60).
  { replace s with (s mod 3600 + (60 * (s / 3600)) * 60) at 1 by lia.
    apply Z.mod_add. lia. }
  assert (0 <= s mod 3600 / 60 < 60).
  { split; [apply Z.div_pos; lia | apply Z.div_lt_upper_bound; lia]. }
  rewrite Hm. lia.
Qed.

(** X14.  The clock of the editor is unambiguous: two elapsed times that
    are not negative are shown with the same text only if they are the
    same number of seconds. *)
Theorem formatTime_injective (s t : Z) :
  0 <= s -> 0 <= t -> formatTime s = formatTime t -> s = t.
Proof.
  intros Hs Ht E.
  destruct (clock_parts Hs) as (Hh1 & Hm1 & Hc1 & Es).
  destruct (clock_parts Ht) as (Hh2 & Hm2 & Hc2 & Et).
  unfold formatTime in E. cbn zeta in E.
  fold (two (Z.rem s 3600 / 60)) (two (Z.rem s 60))
       (two (Z.rem t 3600 / 60)) (two (Z.rem t 60)) in E.
  set (h1 := s / 3600) in *. set (m1 := Z.rem s 3600 / 60) in *.
  set (c1 := Z.rem s 60) in *.
  set (h2 := t / 3600) in *. set (m2 := Z.rem t 3600 / 60) in *.
  set (c2 := Z.rem t 60) in *.
  destruct (two_digits Hm1) as [Dm1 Lm1], (two_digits Hm2) as [Dm2 Lm2].
  destruct (two_digits Hc1) as [Dc1 Lc1], (two_digits Hc2) as [Dc2 Lc2].
  destruct (0 <? h1) eqn:E1, (0 <? h2) eqn:E2;
    try apply Z.ltb_lt in E1; try apply Z.ltb_ge in E1;
    try apply Z.ltb_lt in E2; try apply Z.ltb_ge in E2;
    cbn [String.append] in E;
    apply split_digits in E;
    try apply toString_digits; try apply colon_no_digit; try lia;
    destruct E as (Eh & _ & Er).
  - apply toString_inj in Eh.
    apply split_digits in Er; auto using colon_no_digit.
    destruct Er as (Em & _ & Ec).
    apply two_inj in Em; auto. apply two_inj in Ec; auto. lia.
  - exfalso. apply (f_equal String.length) in Er.
    rewrite length_append in Er. cbn [String.length] in Er. lia.
  - exfalso. apply (f_equal String.length) in Er.
    rewrite length_append in Er. cbn [String.length] in Er. lia.
  - apply toString_inj in Eh. apply two_inj in Er; auto. lia.
Qed.

Lemma formatTime_injective_witness : 3725 = 3600 + 125.
Proof.
  apply (@formatTime_injective 3725 (3600 + 125)); [lia | lia | reflexivity].
Defined.

Lemma formatDuration_text (s : Z) :
  0 < s ->
  formatDuration (Some s) =
    if s / 60 <? 60 then toString (s / 60) ++ "m"
    else toString (s / 60 / 60) ++ "h " ++ toString (Z.rem (s / 60) 60) ++ "m".
Proof. destruct s; [lia | reflexivity | lia]. Qed.

Lemma formatDuration_same_minutes (s t : Z) :
  0 < s -> 0 < t ->
  formatDuration (Some s) = formatDuration (Some t) -> s / 60 = t / 60.
Proof.
  intros Hs Ht. rewrite !formatDuration_text by assumption.
  assert (Hs' : 0 <= s / 60) by (apply Z.div_pos; lia).
  assert (Ht' : 0 <= t / 60) by (apply Z.div_pos; lia).
  set (a := s / 60) in *. set (b := t / 60) in *.
  assert (Hparts : forall x, 0 <= x ->
            0 <= x / 60 /\ 0 <= Z.rem x 60 /\ x = 60 * (x / 60) + Z.rem x 60).
  { intros x Hx. rewrite Z.rem_mod_nonneg by lia.
    pose proof (Z.div_mod x 60 ltac:(lia)).
    pose proof (Z.mod_pos_bound x 60 ltac:(lia)).
    pose proof (Z.div_pos x 60 Hx ltac:(lia)). lia. }
  destruct (Hparts a Hs') as (Ha1 & Ha2 & Ea), (Hparts b Ht') as (Hb1 & Hb2 & Eb).
  assert (Dm : is_digit "m" = false) by reflexivity.
  assert (Dh : is_digit "h" = false) by reflexivity.
  destruct (a <? 60), (b <? 60); intros E; cbn [String.append] in E;
    apply split_digits in E; try apply toString_digits; auto;
    destruct E as (E1 & E2 & E3); try discriminate.
  - apply toString_inj, E1.
  - apply toString_inj in E1. injection E3 as E3.
    change (toString (Z.rem a 60) ++ String "m" EmptyString =
            toString (Z.rem b 60) ++ String "m" EmptyString)%string in E3.
    apply split_digits in E3; try apply toString_digits; auto.
    destruct E3 as (E3 & _). apply toString_inj in E3. lia.
Qed.

(** X15.  Durations in the history: two positive durations get the same
    text exactly when they have the same number of whole minutes (seconds
    are dropped); a positive duration never gets the dash that stands for a
    missing or zero duration. *)
Theorem formatDuration_minutes (s t : Z) :
  0 < s -> 0 < t ->
  (formatDuration (Some s) = formatDuration (Some t) <-> s / 60 = t / 60) /\
  formatDuration (Some s) <> "-" /\
  formatDuration None = "-" /\ formatDuration (Some 0) = "-".
Proof.
  intros Hs Ht. split; [|split; [|split; reflexivity]].
  - split; [apply formatDuration_same_minutes; assumption|].
    intros E. rewrite !formatDuration_text, E by assumption. reflexivity.
  - rewrite formatDuration_text by assumption.
    assert (Hs' : 0 <= s / 60) by (apply Z.div_pos; lia).
    assert (Hh : 0 <= s / 60 / 60) by (apply Z.div_pos; lia).
    destruct (s / 60 <? 60); intros E; cbn [String.append] in E;
      change "-" with (EmptyString ++ String "-" EmptyString)%string in E;
      apply split_digits in E; try apply toString_digits; auto;
      destruct E as (_ & E & _); discriminate.
Qed.

Lemma formatDuration_minutes_witness :
  formatDuration (Some 3600) = formatDuration (Some 3659) <-> 3600 / 60 = 3659 / 60.
Proof.
  apply (proj1 (@formatDuration_minutes 3600 3659 ltac:(lia) ltac:(lia))).
Defined.

End TextFacts.

(** ** Undo, display order and grouping in the editor *)
Section EditorUndoFacts.
Import Js ActiveWorkout Spec Samples More.
Local Open Scope string_scope.
Local Open Scope list_scope.
Local Open Scope Z_scope.

Lemma filter_keep_all (A : Type) (p : A -> bool) (l : list A) :
  (forall x, In x l -> p x = true) -> filter p l = l.
Proof.
  intros H. apply forallb_filter_id. apply forallb_forall. exact H.
Qed.

(** X16.  Deleting the set that was just added undoes the addition: the
    editor is back in the state before, provided the id of the new row is
    new on the card. *)
Theorem addSet_then_deleteSet (exercises : list WorkoutExercise)
    (weId newId : string) (currentSets : list SetData) :
  (forall we s, In we exercises -> we_id we = weId -> In s (sets we) ->
                id s <> newId) ->
  deleteSet (addSet exercises weId currentSets (Some newId)) weId newId
  = exercises.
Proof.
  intros Hfresh. unfold deleteSet, addSet. rewrite map_map.
  rewrite <- (map_id exercises) at 2. apply map_ext_in. intros we Hwe.
  destruct (String.eqb (we_id we) weId) eqn:E; cbn [we_id]; rewrite E;
    [|reflexivity].
  cbn [we_id exercise sets]. apply String.eqb_eq in E.
  rewrite filter_app. cbn [filter inserted_set id].
  rewrite String.eqb_refl. cbn [negb]. rewrite app_nil_r.
  rewrite filter_keep_all; [apply card_eta|].
  intros s Hs. apply negb_true_iff, String.eqb_neq. eapply Hfresh; eauto.
Qed.

Lemma addSet_then_deleteSet_witness :
  deleteSet (addSet [bench] "we1" (sets bench) (Some "s4")) "we1" "s4" = [bench].
Proof.
  apply (@addSet_then_deleteSet [bench] "we1" "s4" (sets bench)).
  intros we s [<- | []] _ [<- | [<- | [<- | []]]]; discriminate.
Defined.

(** X17.  Pressing the completion button of a set twice restores the
    editor: the second press, made on the set as shown after the first,
    gives back the state before, wherever the flag shown at the first press
    was the flag of the set. *)
Theorem toggle_twice (exercises : list WorkoutExercise) (setId : string)
    (isCompleted : bool) :
  (forall we s, In we exercises -> In s (sets we) -> id s = setId ->
                is_completed s = isCompleted) ->
  toggleSetComplete (toggleSetComplete exercises setId isCompleted)
    setId (negb isCompleted)
  = exercises.
Proof.
  intros Hshown. unfold toggleSetComplete. rewrite map_map.
  rewrite <- (map_id exercises) at 2. apply map_ext_in. intros we Hwe.
  cbn [we_id exercise sets]. rewrite map_map.
  rewrite <- (card_eta we) at 4. f_equal.
  rewrite <- (map_id (sets we)) at 2. apply map_ext_in. intros s Hs.
  destruct (String.eqb (id s) setId) eqn:E; cbn [id]; rewrite E; [|reflexivity].
  cbn [set_number weight reps rpe]. rewrite negb_involutive.
  apply String.eqb_eq in E. rewrite <- (Hshown we s Hwe Hs E).
  destruct s; reflexivity.
Qed.

Lemma toggle_twice_witness :
  toggleSetComplete (toggleSetComplete [bench] "s2" false) "s2" true = [bench].
Proof.
  apply (@toggle_twice [bench] "s2" false).
  intros we s [<- | []] [<- | [<- | [<- | []]]] _; reflexivity.
Defined.

Lemma by_set_number_before (a b : SetData) :
  before by_set_number a b <-> set_number a <= set_number b.
Proof.
  unfold before, by_set_number. change 0%Q with (inject_Z 0).
  rewrite <- Zle_Qle. lia.
Qed.

Lemma loaded_sets_sorted (l : list SetData) :
  StronglySorted (fun a b => set_number a <= set_number b)
    (Array_sort by_set_number l).
Proof.
  eapply StronglySorted_ind with (R := before by_set_number)
    (P := StronglySorted (fun a b => set_number a <= set_number b)).
  - constructor.
  - intros a l' _ IH Hall. constructor; [exact IH|].
    eapply Forall_impl; [|exact Hall]. intros b. apply by_set_number_before.
  - apply Array_sort_sorted.
    + intros x y. rewrite !by_set_number_before. lia.
    + intros x y z. rewrite !by_set_number_before. lia.
Qed.

Lemma set_numbers_sorted (l : list SetData) :
  StronglySorted (fun a b => set_number a <= set_number b) l ->
  StronglySorted Z.le (map set_number l).
Proof.
  induction 1 as [|a l Hs IH Ha]; cbn [map]; constructor.
  - exact IH.
  - rewrite Forall_map. exact Ha.
Qed.

(** A list of [n] distinct numbers from [a] to [a + n - 1] in ascending
    order is [a, a + 1, ...]. *)
Lemma sorted_range (l : list Z) :
  forall a,
    StronglySorted Z.le l -> NoDup l ->
    Forall (fun k => a <= k <= a + Z.of_nat (length l) - 1) l ->
    l = map (fun i => a + Z.of_nat i) (seq 0 (length l)).
Proof.
  induction l as [|x l IH]; intros a Hs Hnd Hall; [reflexivity|].
  inversion Hs as [|? ? Hs' Hx]; subst.
  inversion Hnd as [|? ? Hnot Hnd']; subst.
  inversion Hall as [|? ? Hbx Hall']; subst.
  cbn [length] in *.
  assert (Hgt : Forall (fun k => x < k) l).
  { rewrite Forall_forall in *. intros k Hk. specialize (Hx k Hk).
    assert (x <> k) by (intros ->; tauto). lia. }
  assert (Hl : l = map (fun i => (a + 1) + Z.of_nat i) (seq 0 (length l))).
  { apply IH; [exact Hs' | exact Hnd' |].
    rewrite Forall_forall in *. intros k Hk.
    specialize (Hgt k Hk). specialize (Hall' k Hk). lia. }
  assert (Hxa : x = a).
  { destruct l as [|y l']; [cbn in Hbx; lia|].
    cbn [length seq map] in Hl. injection Hl as Hy _.
    inversion Hgt; subst. lia. }
  subst x. cbn [seq map]. f_equal; [lia|].
  rewrite <- seq_shift, map_map. rewrite Hl at 1.
  apply map_ext. intros i. lia.
Qed.

(** X18.  A card whose stored sets carry unique and dense numbers is shown
    with its sets in the order 1, 2, ..., n, in whatever order the store
    returns them, and it shows the same sets. *)
Theorem loaded_sets_in_order (stored : option (list SetData)) :
  unique_dense (map set_number (arr stored)) ->
  map set_number (loaded_sets stored) =
    map Z.of_nat (seq 1 (length (arr stored))) /\
  Permutation (loaded_sets stored) (arr stored).
Proof.
  intros [Hnd Hall]. unfold loaded_sets.
  pose proof (Array_sort_perm by_set_number (arr stored)) as Hp.
  split; [|exact Hp].
  pose proof (Permutation_map set_number Hp) as Hpn.
  rewrite <- (Permutation_length Hp), <- (length_map set_number).
  rewrite <- seq_shift, map_map.
  etransitivity.
  - apply (@sorted_range (map set_number (Array_sort by_set_number (arr stored))) 1).
    + apply set_numbers_sorted, loaded_sets_sorted.
    + eapply Permutation_NoDup; [apply Permutation_sym, Hpn | exact Hnd].
    + rewrite (Permutation_length Hpn).
      eapply Permutation_Forall; [apply Permutation_sym, Hpn|].
      eapply Forall_impl; [|exact Hall]. cbv beta. intros k Hk. lia.
  - apply map_ext. intros i. lia.
Qed.

Lemma loaded_sets_in_order_witness :
  map set_number
    (loaded_sets (Some [numbered "c" 3; numbered "a" 1; numbered "b" 2]))
  = [1; 2; 3] /\
  Permutation
    (loaded_sets (Some [numbered "c" 3; numbered "a" 1; numbered "b" 2]))
    [numbered "c" 3; numbered "a" 1; numbered "b" 2].
Proof.
  apply (@loaded_sets_in_order
           (Some [numbered "c" 3; numbered "a" 1; numbered "b" 2])).
  split.
  - repeat constructor; cbn; intuition discriminate.
  - repeat constructor; cbn; lia.
Defined.

Lemma group_fold (es : list Exercise) :
  forall m,
    (forall e, In e es -> inherited (muscle_group e) = false) ->
    exists m',
      fold_left group_step es (Some m) = Some m' /\
      forall g, map_get String.eqb g m' =
                grown (map_get String.eqb g m)
                  (filter (fun e => String.eqb (muscle_group e) g) es).
Proof.
  induction es as [|e es IH]; intros m Hok.
  - exists m. split; [reflexivity|]. intros g. reflexivity.
  - cbn [fold_left group_step].
    rewrite (Hok e (or_introl eq_refl)).
    assert (Hok' : forall x, In x es -> inherited (muscle_group x) = false)
      by (intros x Hx; apply Hok; right; exact Hx).
    set (step := match map_get String.eqb (muscle_group e) m with
                 | Some l => Some (map_set String.eqb (muscle_group e) (l ++ [e]) m)
                 | None => Some (map_set String.eqb (muscle_group e) [e] m)
                 end).
    assert (Hstep : exists m1, step = Some m1 /\
              forall g, map_get String.eqb g m1 =
                if String.eqb (muscle_group e) g
                then grown (map_get String.eqb g m) [e]
                else map_get String.eqb g m).
    { unfold step. destruct (map_get String.eqb (muscle_group e) m) as [l|] eqn:G;
        eexists; (split; [reflexivity|]); intros g;
        rewrite (map_get_set _ String.eqb_eq), String.eqb_sym;
        destruct (String.eqb (muscle_group e) g) eqn:E; try reflexivity;
        apply String.eqb_eq in E; subst g; rewrite G; reflexivity. }
    destruct Hstep as (m1 & -> & Hm1).
    destruct (IH m1 Hok') as (m' & Hm' & Hget).
    exists m'. split; [exact Hm'|]. intros g. rewrite Hget, Hm1. cbn [filter].
    destruct (String.eqb (muscle_group e) g); [|reflexivity].
    destruct (filter (fun x => String.eqb (muscle_group x) g) es) as [|y ys],
      (map_get String.eqb g m) as [l|]; cbn [grown app]; try reflexivity.
    rewrite <- app_assoc. reflexivity.
Qed.

Lemma group_fold_error (es : list Exercise) :
  fold_left group_step es None = None.
Proof. induction es as [|e es IH]; [reflexivity | exact IH]. Qed.

Lemma group_fold_inherited (es : list Exercise) :
  forall acc,
    existsb (fun e => inherited (muscle_group e)) es = true ->
    fold_left group_step es acc = None.
Proof.
  induction es as [|e es IH]; intros acc H; [discriminate|].
  cbn [existsb] in H. cbn [fold_left].
  destruct (inherited (muscle_group e)) eqn:E.
  - destruct acc as [m|]; cbn [group_step]; [rewrite E|]; apply group_fold_error.
  - apply IH. exact H.
Qed.

(** X19.  Grouping the exercises by muscle group: unless a muscle group
    bears the name of an inherited member of objects, every group holds
    exactly the exercises of its muscle group, in their order, and a muscle
    group without exercise has no group; with such a name the grouping
    fails. *)
Theorem groupedExercises_groups (es : list Exercise) :
  if existsb (fun e => inherited (muscle_group e)) es
  then groupedExercises es = None
  else exists m,
         groupedExercises es = Some m /\
         forall g, map_get String.eqb g m =
                   match filter (fun e => String.eqb (muscle_group e) g) es with
                   | [] => None
                   | l => Some l
                   end.
Proof.
  destruct (existsb (fun e => inherited (muscle_group e)) es) eqn:E.
  - apply group_fold_inherited, E.
  - destruct (@group_fold es []) as (m & Hm & Hget).
    + intros e He. destruct (inherited (muscle_group e)) eqn:Ei; [|reflexivity].
      assert (existsb (fun e => inherited (muscle_group e)) es = true)
        by (apply existsb_exists; exists e; auto).
      congruence.
    + exists m. split; [exact Hm|]. intros g. rewrite Hget. cbn [map_get].
      destruct (filter (fun e => String.eqb (muscle_group e) g) es); reflexivity.
Qed.

End EditorUndoFacts.

(** ** Starting from a template *)
Section TemplateFacts.
Import Js Templates Spec.
Local Open Scope list_scope.
Local Open Scope Z_scope.

Lemma insert_sets_range (n : nat) (i : Z) (extra : nat) :
  insert_sets (n + extra) i (i + Z.of_nat n - 1) =
  map (fun k => i + Z.of_nat k) (seq 0 n).
Proof.
  revert i. induction n as [|n IH]; intros i.
  - cbn [Nat.add seq map]. destruct extra; cbn [insert_sets]; [reflexivity|].
    replace (i <=? i + Z.of_nat 0 - 1) with false
      by (symmetry; apply Z.leb_gt; lia).
    reflexivity.
  - cbn [Nat.add insert_sets seq map].
    replace (i <=? i + Z.of_nat (S n) - 1) with true
      by (symmetry; apply Z.leb_le; lia).
    f_equal; [lia|].
    replace (i + Z.of_nat (S n) - 1) with ((i + 1) + Z.of_nat n - 1) by lia.
    rewrite IH, <- seq_shift, map_map. apply map_ext. intros k. lia.
Qed.

(** X20.  A workout started from a template gets, for each exercise, the
    set numbers 1, 2, ..., n in this order, where n is the target of the
    template or 3 when the target is missing or 0 (and no set for a negative
    target): the numbers are unique and dense from 1, and the loop has
    ended, more turns add nothing. *)
Theorem template_sets_numbered (target_sets : option Z) (extra : nat) :
  template_set_numbers target_sets =
    map Z.of_nat (seq 1 (Z.to_nat (numSets target_sets))) /\
  unique_dense (template_set_numbers target_sets) /\
  insert_sets (Z.to_nat (numSets target_sets) + extra) 1 (numSets target_sets)
    = template_set_numbers target_sets /\
  (numSets target_sets = 3 <->
   target_sets = None \/ target_sets = Some 0 \/ target_sets = Some 3).
Proof.
  assert (Hloop : forall extra,
            insert_sets (Z.to_nat (numSets target_sets) + extra) 1
              (numSets target_sets) =
            map Z.of_nat (seq 1 (Z.to_nat (numSets target_sets)))).
  { intros e. destruct (Z.le_gt_cases 0 (numSets target_sets)) as [Hn | Hn].
    - replace (numSets target_sets)
        with (1 + Z.of_nat (Z.to_nat (numSets target_sets)) - 1) at 2 by lia.
      rewrite insert_sets_range, <- seq_shift, map_map.
      apply map_ext. intros k. lia.
    - replace (Z.to_nat (numSets target_sets)) with 0%nat by lia.
      cbn [Nat.add seq map]. destruct e; cbn [insert_sets]; [reflexivity|].
      replace (1 <=? numSets target_sets) with false
        by (symmetry; apply Z.leb_gt; lia).
      reflexivity. }
  assert (Hnum : template_set_numbers target_sets =
                 map Z.of_nat (seq 1 (Z.to_nat (numSets target_sets)))).
  { unfold template_set_numbers. rewrite <- (Hloop 0%nat), Nat.add_0_r. reflexivity. }
  split; [exact Hnum|]. split; [|split].
  - rewrite Hnum. split.
    + apply Finite.Injective_map_NoDup; [intros x y; apply Nat2Z.inj | apply seq_NoDup].
    + rewrite length_map, length_seq. apply Forall_forall. intros k Hk.
      apply in_map_iff in Hk. destruct Hk as (i & <- & Hi). apply in_seq in Hi. lia.
  - rewrite Hloop, Hnum. reflexivity.
  - unfold numSets. destruct target_sets as [[|p|p]|]; split; intros H;
      try (destruct H as [H | [H | H]]); try discriminate; try lia; auto.
    + right. right. congruence.
    + injection H as ->. reflexivity.
Qed.

End TemplateFacts.

(** ** The conversion of the page along the stored weights *)
Section StoredFacts.
Import PrimFloat SpecFloat FloatOps.
Import Js Settings Stored.
Local Open Scope string_scope.
Local Open Scope Z_scope.

Ltac order_cases :=
  repeat match goal with
    | H : context [PosDef.Pos.compare_cont Eq ?a ?b] |- _ =>
        change (PosDef.Pos.compare_cont Eq a b) with (Pos.compare a b) in H
    | |- context [PosDef.Pos.compare_cont Eq ?a ?b] =>
        change (PosDef.Pos.compare_cont Eq a b) with (Pos.compare a b)
    | H : context [Z.compare ?a ?b] |- _ =>
        destruct (Z.compare_spec a b); subst
    | |- context [Z.compare ?a ?b] =>
        destruct (Z.compare_spec a b); subst
    | H : context [Pos.compare ?a ?b] |- _ =>
        destruct (Pos.compare_spec a b); subst
    | |- context [Pos.compare ?a ?b] =>
        destruct (Pos.compare_spec a b); subst
    end.

(** [<=] on doubles is transitive: signs first, then exponents, then
    mantissas. *)
Lemma SFleb_trans (x y z : spec_float) :
  SFleb x y = true -> SFleb y z = true -> SFleb x z = true.
Proof.
  unfold SFleb, SFcompare.
  destruct x as [[]|[]| |[] mx ex], y as [[]|[]| |[] my ey],
    z as [[]|[]| |[] mz ez];
    try discriminate; try reflexivity;
    intros H1 H2;
    order_cases; cbn in *; try discriminate; try reflexivity; try lia.
Qed.

Lemma leb_trans (x y z : float) :
  (x <=? y)%float = true -> (y <=? z)%float = true -> (x <=? z)%float = true.
Proof. rewrite !FloatAxioms.leb_spec. apply SFleb_trans. Qed.

Lemma ascending_spec (f : Z -> float) (fuel : nat) :
  forall k : Z,
    ascending f fuel k (f k) = true ->
    forall i j : Z, k <= i <= j -> j <= k + Z.of_nat fuel ->
      (f i <=? f j)%float = true.
Proof.
  induction fuel as [|fuel IH]; intros k H i j Hij Hj;
    cbn [ascending] in H; apply andb_true_iff in H; destruct H as [Hk H].
  - replace i with k by lia. replace j with k by lia. exact Hk.
  - cbv zeta in H. apply andb_true_iff in H. destruct H as [Hstep Hrest].
    destruct (Z.eq_dec i k) as [->|Hne].
    + destruct (Z.eq_dec j k) as [->|Hne]; [exact Hk|].
      apply leb_trans with (f (k + 1)); [exact Hstep|].
      apply (IH (k + 1) Hrest); lia.
    + apply (IH (k + 1) Hrest); lia.
Qed.

(** The doubles of the stored weights below 2500 kg, and the doubles of the
    tenths of a pound they convert to, in ascending order. *)
Lemma weights_ascending :
  ascending (fun k => double (k # 100)) (Z.to_nat 249999) 0 (double (0 # 100))
  = true.
Proof. vm_compute. reflexivity. Qed.

Lemma pounds_ascending :
  ascending (fun n => double (n # 10)) (Z.to_nat 55116) 0 (double (0 # 10))
  = true.
Proof. vm_compute. reflexivity. Qed.

Lemma tenths_range (i j : Z) :
  0 <= i <= j -> j < 250000 ->
  0 <= tenths i /\ tenths i <= tenths j /\ tenths j <= 55116.
Proof.
  intros Hij Hj. unfold tenths. split; [|split].
  - apply Z.div_pos; lia.
  - apply Z.div_le_mono; lia.
  - apply Z.div_le_upper_bound; lia.
Qed.

(** X22.  On the stored weights below 2500 kg the page keeps the order of
    weights, in the arithmetic of the engine: of two such weights the one
    that is not heavier is not shown heavier, whether the target is lbs or
    kg. *)
Theorem convertWeight_keeps_order (unit : UnitPreference)
    (toUnit : option UnitPreference) (i j : Z) :
  0 <= i <= j -> j < 250000 ->
  (convertWeight unit (double (i # 100)) toUnit <=?
   convertWeight unit (double (j # 100)) toUnit)%float = true.
Proof.
  intros Hij Hj. unfold convertWeight. cbv zeta.
  destruct (String.eqb (str_or toUnit unit) "lbs").
  - change ((convertWeight "kg" (double (i # 100)) (Some "lbs") <=?
             convertWeight "kg" (double (j # 100)) (Some "lbs"))%float = true).
    rewrite !(@agree_from_spec (Z.to_nat 250000) 0 0 1000000 eq_refl
                ltac:(lia) agree_below_2500) by (rewrite Z2Nat.id; lia).
    pose proof (tenths_range Hij Hj) as Ht.
    apply (@ascending_spec (fun n => double (n # 10)) (Z.to_nat 55116) 0
             pounds_ascending); [lia|].
    rewrite Z2Nat.id; lia.
  - apply (@ascending_spec (fun k => double (k # 100)) (Z.to_nat 249999) 0
             weights_ascending); [lia|].
    rewrite Z2Nat.id; lia.
Qed.

(** X22 at 80 kg and 162.5 kg, shown in lbs. *)
Lemma convertWeight_keeps_order_witness :
  (convertWeight "kg" (double (8000 # 100)) (Some "lbs") <=?
   convertWeight "kg" (double (16250 # 100)) (Some "lbs"))%float = true.
Proof.
  apply (@convertWeight_keeps_order "kg" (Some "lbs") 8000 16250); lia.
Defined.

End StoredFacts.
